(** * Merchant Center monitor: check-and-alert engine

    A shallow embedding of the Python sources

      - [app/models.py], [app/config.py]
      - [app/auth.py]             (access token cache)
      - [app/merchant_api.py]     (retrying request loop, response parsing)
      - [app/database.py]         (Firestore snapshot store)
      - [app/database_mock.py]    (in-memory snapshot store)
      - [app/email_service.py]    (alert e-mail notifier)
      - [app/alert_service.py]    (production engine)
      - [app/alert_service_dev.py] (development engine)
      - [app/main.py]             (HTTP surface)
      - [app/scheduler.py]        (periodic check cycles)

    Python [int] is [Z]; [str] is [string]; [datetime] is a [Z] count of
    seconds; pydantic models are records; exceptions are values of [exn]
    carried in the left summand of a result. *)

From Stdlib Require Import ZArith String Ascii List Bool Lia.
From Stdlib Require Import Permutation Sorted DecimalString.
Import ListNotations.

Local Open Scope string_scope.
Local Open Scope list_scope.
Local Open Scope Z_scope.

(* ================================================================== *)
(** ** app/models.py *)

Module Models.

Record ProductStatusCounts := mkCounts {
  approved : Z;
  pending : Z;
  disapproved : Z;
  limited : Z;
  suspended : Z;
  under_review : Z;
  processing : Z
}.

(** [ProductStatusCounts()] : every field defaults to 0. *)
Definition no_counts : ProductStatusCounts := mkCounts 0 0 0 0 0 0 0.

Record IssueCode := mkIssue {
  code : string;
  description : string;
  count : Z
}.

Record ProductStatusSnapshot := mkSnapshot {
  timestamp : Z;
  country : string;
  reporting_context : string;
  totals : ProductStatusCounts;
  delta_disapproved : Z;
  alert_sent : bool;
  top_issues : list IssueCode
}.

End Models.
Import Models.

(* ================================================================== *)
(** ** app/config.py *)

Module Config.

Record Settings := mkSettings {
  alert_threshold_abs : Z;
  alert_threshold_delta : Z;
  alert_country : string;
  alert_reporting_context : string;
  mail_to : string
}.

(** The defaults of [class Settings]; [mail_to] has none in the source
    and is taken from the mock store's settings. *)
Definition default_settings : Settings :=
  mkSettings 25 10 "PL" "SHOPPING_ADS" "admin@example.com".

End Config.
Import Config.

(* ================================================================== *)
(** ** Exceptions and effects *)

Inductive exn :=
| TimeoutException
| GoogleAuthError
| HTTPStatusError (status_code : Z)
| GoogleCloudError (msg : string)
| Exception (msg : string).

(** [str(e)] *)
Definition str_exn (e : exn) : string :=
  match e with
  | TimeoutException => "TimeoutException"
  | GoogleAuthError => "GoogleAuthError"
  | HTTPStatusError _ => "HTTPStatusError"
  | GoogleCloudError m => m
  | Exception m => m
  end.

(** Observable effects, in the order in which a run performs them. *)
Inductive event :=
| EvRequest (attempt : nat)      (* self.client.request(...) *)
| EvSleep (seconds : Z)          (* time.sleep(seconds) *)
| EvRefreshToken                 (* auth_service.refresh_token() *)
| EvSendAlertEmail.              (* email_service.send_alert_email(...) *)

Definition is_sleep (e : event) : bool :=
  match e with EvSleep _ => true | _ => false end.
Definition is_request (e : event) : bool :=
  match e with EvRequest _ => true | _ => false end.
Definition is_notify (e : event) : bool :=
  match e with EvSendAlertEmail => true | _ => false end.
Definition is_refresh (e : event) : bool :=
  match e with EvRefreshToken => true | _ => false end.

Definition count_events (p : event -> bool) (tr : list event) : nat :=
  length (filter p tr).

(** Total number of seconds slept. *)
Definition slept (tr : list event) : Z :=
  fold_right
    (fun e acc => match e with EvSleep s => s + acc | _ => acc end) 0 tr.

(* ================================================================== *)
(** ** The decision rule and the trend, shared by both engines

    [AlertService._should_send_alert] and
    [AlertServiceDev._should_send_alert] are the same text, and so are the
    two [_calculate_trend]. *)

Module Engine.

Definition _should_send_alert (settings : Settings)
    (totals : ProductStatusCounts) (delta_disapproved : Z) : bool :=
  let problematic_total :=
    disapproved totals + suspended totals + limited totals in
  if problematic_total >? alert_threshold_abs settings then true
  else if delta_disapproved >=? alert_threshold_delta settings then true
  else false.

Inductive trend_label :=
| increasing | decreasing | stable | insufficient_data.

(** The returned dict; the short-data answer has no ["period"] key. *)
Record TrendDict := mkTrend {
  trend : trend_label;
  change : Z;
  period : option string
}.

Definition _calculate_trend (snapshots_24h : list ProductStatusSnapshot)
    : TrendDict :=
  if Z.of_nat (length snapshots_24h) <? 2 then
    mkTrend insufficient_data 0 None
  else
    match snapshots_24h with
    | first_snapshot :: _ =>
        let last_snapshot := last snapshots_24h first_snapshot in
        let change :=
          disapproved (totals last_snapshot)
          - disapproved (totals first_snapshot) in
        let trend :=
          if change >? 0 then increasing
          else if change <? 0 then decreasing
          else stable in
        mkTrend trend change (Some "24h")
    | [] => mkTrend insufficient_data 0 None
    end.

End Engine.

(* ================================================================== *)
(** ** Python built-ins used by the sources *)

Module Py.

(** [str.upper()] on ASCII text: the letters a..z move to A..Z and every
    other byte is kept. *)
Definition upper_ascii (c : ascii) : ascii :=
  let n := nat_of_ascii c in
  if ((97 <=? n) && (n <=? 122))%nat then ascii_of_nat (n - 32) else c.

Fixpoint upper (s : string) : string :=
  match s with
  | EmptyString => EmptyString
  | String c r => String (upper_ascii c) (upper r)
  end.

(** [d.get(key, default)] on a key that may be absent. *)
Definition get {A} (v : option A) (default : A) : A :=
  match v with Some x => x | None => default end.

(** [x in [s1, s2, ...]] for strings. *)
Definition str_in (x : string) (l : list string) : bool :=
  existsb (String.eqb x) l.

(** Truth value of a [str]: non-empty. *)
Definition truthy (s : string) : bool := negb (String.eqb s "").

(** [l[:stop]]; a negative [stop] counts from the end. *)
Definition slice_to {A} (l : list A) (stop : Z) : list A :=
  if stop <? 0 then firstn (Z.to_nat (Z.of_nat (length l) + stop)) l
  else firstn (Z.to_nat stop) l.

(** [l[start:]]; a negative [start] counts from the end. *)
Definition slice_from {A} (l : list A) (start : Z) : list A :=
  if start <? 0 then skipn (Z.to_nat (Z.of_nat (length l) + start)) l
  else skipn (Z.to_nat start) l.

(** [l.sort(key=key, reverse=True)]: a stable sort into descending key
    order; elements with equal keys keep their original order. *)
Fixpoint insert_desc {A} (key : A -> Z) (x : A) (l : list A) : list A :=
  match l with
  | [] => [x]
  | y :: ys =>
      if key x <? key y then y :: insert_desc key x ys else x :: y :: ys
  end.

Fixpoint sort_reverse {A} (key : A -> Z) (l : list A) : list A :=
  match l with
  | [] => []
  | x :: xs => insert_desc key x (sort_reverse key xs)
  end.

(** A [dict] with [str] keys, as the list of its items in insertion
    order; [d.get(k)], [d[k] = v] and [d.update(other)]. *)
Definition dict (V : Type) : Type := list (string * V).

Fixpoint dict_get {V} (d : dict V) (k : string) : option V :=
  match d with
  | [] => None
  | (k', v) :: rest => if (k' =? k)%string then Some v else dict_get rest k
  end.

Fixpoint dict_set {V} (d : dict V) (k : string) (v : V) : dict V :=
  match d with
  | [] => [(k, v)]
  | (k', v') :: rest =>
      if (k' =? k)%string then (k', v) :: rest
      else (k', v') :: dict_set rest k v
  end.

Definition dict_update {V} (d other : dict V) : dict V :=
  fold_left (fun acc item => dict_set acc (fst item) (snd item)) other d.

End Py.

(* ================================================================== *)
(** ** app/merchant_api.py *)

Module MerchantAPI.

(** The JSON body of an aggregate-status report; every key may be
    missing, which is what the [.get(key, default)] calls allow for. *)
Record IssueDetail := mkDetail {
  d_code : option string;
  d_description : option string;
  d_count : option Z
}.

Record StatusItem := mkItem {
  i_status : option string;
  i_count : option Z;
  i_issueDetails : option (list IssueDetail)
}.

Record ApiResponse := mkResponse {
  r_items : option (list StatusItem)
}.

(** One turn of the [for item in items] loop of
    [parse_product_status_counts]. *)
Definition parse_item (counts : ProductStatusCounts) (item : StatusItem)
    : ProductStatusCounts :=
  let status := Py.upper (Py.get (i_status item) "") in
  let count := Py.get (i_count item) 0 in
  if (status =? "APPROVED")%string then
    mkCounts (approved counts + count) (pending counts) (disapproved counts)
      (limited counts) (suspended counts) (under_review counts)
      (processing counts)
  else if (status =? "PENDING")%string then
    mkCounts (approved counts) (pending counts + count) (disapproved counts)
      (limited counts) (suspended counts) (under_review counts)
      (processing counts)
  else if (status =? "DISAPPROVED")%string then
    mkCounts (approved counts) (pending counts) (disapproved counts + count)
      (limited counts) (suspended counts) (under_review counts)
      (processing counts)
  else if (status =? "LIMITED")%string then
    mkCounts (approved counts) (pending counts) (disapproved counts)
      (limited counts + count) (suspended counts) (under_review counts)
      (processing counts)
  else if (status =? "SUSPENDED")%string then
    mkCounts (approved counts) (pending counts) (disapproved counts)
      (limited counts) (suspended counts + count) (under_review counts)
      (processing counts)
  else if (status =? "UNDER_REVIEW")%string then
    mkCounts (approved counts) (pending counts) (disapproved counts)
      (limited counts) (suspended counts) (under_review counts + count)
      (processing counts)
  else if (status =? "PROCESSING")%string then
    mkCounts (approved counts) (pending counts) (disapproved counts)
      (limited counts) (suspended counts) (under_review counts)
      (processing counts + count)
  else counts.

Definition parse_product_status_counts (api_response : ApiResponse)
    : ProductStatusCounts :=
  let counts := no_counts in
  let items := Py.get (r_items api_response) [] in
  fold_left parse_item items counts.

(** One turn of the inner [for detail in issue_details] loop. *)
Definition collect_detail (issues : list IssueCode) (detail : IssueDetail)
    : list IssueCode :=
  let code := Py.get (d_code detail) "" in
  let description := Py.get (d_description detail) "" in
  let count := Py.get (d_count detail) 0 in
  if Py.truthy code && (count >? 0) then
    issues ++ [mkIssue code description count]
  else issues.

(** One turn of the outer [for item in items] loop. *)
Definition collect_item (issues : list IssueCode) (item : StatusItem)
    : list IssueCode :=
  if Py.str_in (Py.upper (Py.get (i_status item) ""))
       ["DISAPPROVED"; "LIMITED"; "SUSPENDED"]
  then
    let issue_details := Py.get (i_issueDetails item) [] in
    fold_left collect_detail issue_details issues
  else issues.

Definition get_top_issue_codes (api_response : ApiResponse) (limit : Z)
    : list IssueCode :=
  let items := Py.get (r_items api_response) [] in
  let issues := fold_left collect_item items [] in
  let issues := Py.sort_reverse count issues in
  Py.slice_to issues limit.


(** *** The retrying request loop, [_make_request] *)

(** What one turn of the loop meets. *)
Inductive attempt_outcome :=
| AuthFailure (refresh_raises : bool)
    (* get_access_token() raises GoogleAuthError; the flag tells whether
       the refresh_token() call of the handler raises in its turn *)
| RequestTimeout                (* request raises httpx.TimeoutException *)
| RequestError (msg : string)   (* request raises any other exception *)
| Response (status_code : Z) (body : ApiResponse).

(** How a turn of the loop ends. *)
Inductive step :=
| Continue
| Return (body : ApiResponse)
| Raise (e : exn).

(** [response.raise_for_status()] of httpx: raises [HTTPStatusError]
    unless the status is a 2xx. *)
Definition raise_for_status (status_code : Z) : option exn :=
  if (200 <=? status_code) && (status_code <=? 299) then None
  else Some (HTTPStatusError status_code).

(** The body of the [try:] block. *)
Definition try_block (attempt : nat) (o : attempt_outcome)
    : list event * (exn + step) :=
  match o with
  | AuthFailure _ => ([], inl GoogleAuthError)
  | RequestTimeout => ([EvRequest attempt], inl TimeoutException)
  | RequestError msg => ([EvRequest attempt], inl (Exception msg))
  | Response status_code body =>
      if status_code =? 200 then
        ([EvRequest attempt], inr (Return body))
      else if status_code =? 429 then
        let wait_time := 2 ^ Z.of_nat attempt * 60 in
        ([EvRequest attempt; EvSleep wait_time], inr Continue)
      else if status_code >=? 500 then
        let wait_time := 2 ^ Z.of_nat attempt * 10 in
        ([EvRequest attempt; EvSleep wait_time], inr Continue)
      else
        match raise_for_status status_code with
        | Some e => ([EvRequest attempt], inl e)
        | None => ([EvRequest attempt], inr Continue)
        end
  end.

(** The three [except] clauses, tried in order. *)
Definition handlers (max_retries : Z) (attempt : nat) (o : attempt_outcome)
    (e : exn) : list event * step :=
  match e with
  | TimeoutException =>
      if Z.of_nat attempt <? max_retries - 1 then
        ([EvSleep (2 ^ Z.of_nat attempt * 5)], Continue)
      else ([], Raise e)
  | GoogleAuthError =>
      match o with
      | AuthFailure true => ([EvRefreshToken], Raise GoogleAuthError)
      | _ =>
          if Z.of_nat attempt <? max_retries - 1 then
            ([EvRefreshToken], Continue)
          else ([EvRefreshToken], Raise e)
      end
  | _ =>
      if Z.of_nat attempt <? max_retries - 1 then
        ([EvSleep (2 ^ Z.of_nat attempt * 5)], Continue)
      else ([], Raise e)
  end.

Definition attempt_body (max_retries : Z) (attempt : nat)
    (o : attempt_outcome) : list event * step :=
  match try_block attempt o with
  | (evs, inr st) => (evs, st)
  | (evs, inl e) =>
      let (evs', st) := handlers max_retries attempt o e in
      (evs ++ evs', st)
  end.

Definition exhausted (max_retries : Z) : exn :=
  Exception ("Failed to make API request after "
             ++ NilZero.string_of_int (Z.to_int max_retries)
             ++ " attempts").

(** [for attempt in range(max_retries): ...], then the final [raise]. *)
Fixpoint for_attempts (script : nat -> attempt_outcome) (max_retries : Z)
    (range : list nat) : list event * (exn + ApiResponse) :=
  match range with
  | [] => ([], inl (exhausted max_retries))
  | attempt :: rest =>
      match attempt_body max_retries attempt (script attempt) with
      | (evs, Continue) =>
          let (evs', r) := for_attempts script max_retries rest in
          (evs ++ evs', r)
      | (evs, Return body) => (evs, inr body)
      | (evs, Raise e) => (evs, inl e)
      end
  end.

Definition _make_request (script : nat -> attempt_outcome)
    (max_retries : Z) : list event * (exn + ApiResponse) :=
  for_attempts script max_retries (seq 0 (Z.to_nat max_retries)).

(** The default of the [max_retries] parameter. *)
Definition default_max_retries : Z := 3.

(** [get_aggregate_product_statuses]: one [_make_request] with the default
    bound; its [except] clause logs and re-raises. *)
Definition get_aggregate_product_statuses (script : nat -> attempt_outcome)
    : list event * (exn + ApiResponse) :=
  _make_request script default_max_retries.

End MerchantAPI.

(* ================================================================== *)
(** ** app/auth.py *)

Module Auth.

(** What the code reads of a [service_account.Credentials] object. *)
Record Credentials := mkCredentials {
  valid : bool;
  expired : bool;
  refresh_token_of : option string;      (* credentials.refresh_token *)
  token : option string
}.

(** The Google auth library, as far as the service calls it. *)
Record Library := mkLibrary {
  from_service_account_file : exn + Credentials;
  from_service_account_info : exn + Credentials;
  refresh : Credentials -> exn + Credentials
    (* credentials.refresh(Request()): raises, or the object as it is
       after the call *)
}.

(** The service object: [self._credentials] and [self._token]. *)
Record GoogleAuthService := mkAuth {
  _credentials : option Credentials;
  _token : option string
}.

(** [GoogleAuthService()] *)
Definition new : GoogleAuthService := mkAuth None None.

(** Truth value of an [Optional[str]]. *)
Definition truthy (s : option string) : bool :=
  match s with
  | Some s => negb (s =? "")%string
  | None => false
  end.

(** The [else:] branch of [_get_credentials]: new credentials, from the
    key file when [settings.google_service_account_key] is set and from
    the service account info when not. *)
Definition create_credentials (lib : Library) (key : option string)
    (self : GoogleAuthService)
    : (exn + Credentials) * GoogleAuthService :=
  match (if truthy key then from_service_account_file lib
         else from_service_account_info lib) with
  | inl e => (inl e, self)
  | inr c => (inr c, mkAuth (Some c) (_token self))
  end.

(** [_get_credentials]; its [except] clauses log and re-raise. *)
Definition _get_credentials (lib : Library) (key : option string)
    (self : GoogleAuthService)
    : (exn + Credentials) * GoogleAuthService :=
  match _credentials self with
  | None => create_credentials lib key self
  | Some c =>
      if negb (valid c) then
        if expired c && truthy (refresh_token_of c) then
          match refresh lib c with
          | inl e => (inl e, self)
          | inr c' => (inr c', mkAuth (Some c') (_token self))
          end
        else create_credentials lib key self
      else (inr c, self)
  end.

(** [get_access_token] *)
Definition get_access_token (lib : Library) (key : option string)
    (self : GoogleAuthService)
    : (exn + option string) * GoogleAuthService :=
  match _token self with
  | None =>
      match _get_credentials lib key self with
      | (inl e, self1) => (inl e, self1)
      | (inr credentials, self1) =>
          if negb (valid credentials) then
            match refresh lib credentials with
            | inl e => (inl e, self1)
            | inr credentials' =>
                (inr (token credentials'),
                 mkAuth (Some credentials') (token credentials'))
            end
          else
            (inr (token credentials),
             mkAuth (_credentials self1) (token credentials))
      end
  | Some t => (inr (Some t), self)
  end.

(** [refresh_token] *)
Definition refresh_token (lib : Library) (key : option string)
    (self : GoogleAuthService)
    : (exn + option string) * GoogleAuthService :=
  match _get_credentials lib key self with
  | (inl e, self1) => (inl e, self1)
  | (inr credentials, self1) =>
      match refresh lib credentials with
      | inl e => (inl e, self1)
      | inr credentials' =>
          (inr (token credentials'),
           mkAuth (Some credentials') (token credentials'))
      end
  end.

End Auth.

(* ================================================================== *)
(** ** The world a run acts on, and the monad that threads it *)

(** A record of the [email_alerts] collection; the subject and the HTML
    body are templated text and are left out. *)
Record EmailAlert := mkEmailAlert {
  ea_to : string;
  ea_sent_at : Z
}.

Record World := mkWorld {
  checks : list ProductStatusSnapshot;   (* the "checks" collection *)
  email_alerts : list EmailAlert;        (* the "email_alerts" collection *)
  trace : list event                     (* effects performed so far *)
}.

Inductive db_op :=
| OpSaveSnapshot | OpGetLatest | OpGet24h | OpGetAlertHistory
| OpSaveEmailAlert.

(** What the collaborators outside the process answer during one call. *)
Record Env := mkEnv {
  http_script : nat -> MerchantAPI.attempt_outcome;
  db_raises : db_op -> option exn;     (* a store call that raises *)
  sg_send : exn + Z;                   (* self.sg.send(mail): raises, or the
                                          status code of its response *)
  utcnow : Z                           (* datetime.utcnow(), in seconds *)
}.

Definition M (A : Type) : Type := World -> (exn + A) * World.

Definition ret {A} (x : A) : M A := fun w => (inr x, w).

Definition bind {A B} (m : M A) (k : A -> M B) : M B :=
  fun w =>
    match m w with
    | (inr x, w') => k x w'
    | (inl e, w') => (inl e, w')
    end.

Definition raise {A} (e : exn) : M A := fun w => (inl e, w).

(** [try: m  except Exception as e: h e] *)
Definition try_except {A} (m : M A) (h : exn -> M A) : M A :=
  fun w =>
    match m w with
    | (inl e, w') => h e w'
    | (inr x, w') => (inr x, w')
    end.

Definition emit (evs : list event) : M unit :=
  fun w => (inr tt, mkWorld (checks w) (email_alerts w) (trace w ++ evs)).

(** Run a computation that only logs events and may fail. *)
Definition lift_log {A} (p : list event * (exn + A)) : M A :=
  fun w => (snd p, mkWorld (checks w) (email_alerts w) (trace w ++ fst p)).

Notation "x <- m ;; k" := (bind m (fun x => k))
  (at level 61, m at next level, right associativity).

(* ================================================================== *)
(** ** app/database.py : the Firestore store *)

Module Database.

(** Firestore's [order_by(field, DESCENDING)] and [order_by(field)];
    documents with equal keys are kept in insertion order. *)
Definition order_by_desc {A} (key : A -> Z) (docs : list A) : list A :=
  Py.sort_reverse key docs.
Definition order_by_asc {A} (key : A -> Z) (docs : list A) : list A :=
  Py.sort_reverse (fun d => - key d) docs.

(** A store call either raises what the environment says or runs. *)
Definition store_call {A} (env : Env) (op : db_op) (m : M A) : M A :=
  match db_raises env op with
  | Some e => raise e
  | None => m
  end.

(** Appends the document; the returned id is its position. *)
Definition save_snapshot (env : Env) (snapshot : ProductStatusSnapshot)
    : M nat :=
  store_call env OpSaveSnapshot
    (fun w => (inr (length (checks w)),
               mkWorld (checks w ++ [snapshot]) (email_alerts w) (trace w))).

Definition get_latest_snapshot (env : Env)
    : M (option ProductStatusSnapshot) :=
  store_call env OpGetLatest
    (fun w => (inr (hd_error (order_by_desc timestamp (checks w))), w)).

Definition get_snapshots_last_24h (env : Env)
    : M (list ProductStatusSnapshot) :=
  store_call env OpGet24h
    (fun w =>
       let cutoff_time := utcnow env - 24 * 3600 in
       (inr (order_by_asc timestamp
               (filter (fun d => timestamp d >=? cutoff_time) (checks w))),
        w)).

(** Firestore rejects a negative [limit]; the client raises. *)
Definition get_alert_history (env : Env) (limit : Z)
    : M (list ProductStatusSnapshot) :=
  store_call env OpGetAlertHistory
    (fun w =>
       if limit <? 0 then
         (inl (GoogleCloudError "limit is negative"), w)
       else
         (inr (firstn (Z.to_nat limit)
                 (order_by_desc timestamp
                    (filter (fun d => Bool.eqb (alert_sent d) true)
                       (checks w)))),
          w)).

Definition save_email_alert (env : Env) (to : string) : M nat :=
  store_call env OpSaveEmailAlert
    (fun w => (inr (length (email_alerts w)),
               mkWorld (checks w)
                 (email_alerts w ++ [mkEmailAlert to (utcnow env)])
                 (trace w))).

(** A value of the settings document. *)
Inductive setting_value :=
| VInt (z : Z)
| VStr (s : string).

(** The defaults written by [get_settings] when the document is missing. *)
Definition default_settings_doc (settings : Settings)
    : Py.dict setting_value :=
  [ ("alert_threshold_abs", VInt (alert_threshold_abs settings));
    ("alert_threshold_delta", VInt (alert_threshold_delta settings));
    ("alert_country", VStr (alert_country settings));
    ("alert_reporting_context", VStr (alert_reporting_context settings));
    ("mail_to", VStr (mail_to settings)) ].

(** [get_settings] over the document "settings/app_config", which may
    not exist; [raises] is what the store raises, if it does. *)
Definition get_settings (raises : option exn) (settings : Settings)
    (doc : option (Py.dict setting_value))
    : (exn + Py.dict setting_value) * option (Py.dict setting_value) :=
  match raises with
  | Some e => (inl e, doc)
  | None =>
      match doc with
      | Some fields => (inr fields, doc)
      | None =>
          let default_settings := default_settings_doc settings in
          (inr default_settings, Some default_settings)
      end
  end.

(** [update_settings]: [doc_ref.set(new_settings, merge=True)] writes the
    given fields into the document and creates it when it is missing. *)
Definition update_settings (raises : option exn)
    (new_settings : Py.dict setting_value)
    (doc : option (Py.dict setting_value))
    : (exn + unit) * option (Py.dict setting_value) :=
  match raises with
  | Some e => (inl e, doc)
  | None =>
      (inr tt, Some (Py.dict_update (Py.get doc []) new_settings))
  end.

End Database.

(* ================================================================== *)
(** ** app/database_mock.py : the in-memory store *)

Module DatabaseMock.

(** [self.snapshots] *)
Definition Store := list ProductStatusSnapshot.

Definition save_snapshot (snapshot : ProductStatusSnapshot)
    (snapshots : Store) : nat * Store :=
  (S (length snapshots), snapshots ++ [snapshot]).

Definition get_latest_snapshot (snapshots : Store)
    : option ProductStatusSnapshot :=
  match snapshots with
  | [] => None
  | s :: _ => Some (last snapshots s)
  end.

Definition get_snapshots_last_24h (now : Z) (snapshots : Store)
    : list ProductStatusSnapshot :=
  let cutoff_time := now - 24 * 3600 in
  filter (fun s => timestamp s >=? cutoff_time) snapshots.

Definition get_alert_history (limit : Z) (snapshots : Store)
    : list ProductStatusSnapshot :=
  Py.slice_from (filter alert_sent snapshots) (- limit).

(** [self.settings] as set by [__init__]. *)
Definition initial_settings : Py.dict Database.setting_value :=
  [ ("alert_threshold_abs", Database.VInt 25);
    ("alert_threshold_delta", Database.VInt 10);
    ("alert_country", Database.VStr "PL");
    ("alert_reporting_context", Database.VStr "SHOPPING_ADS");
    ("mail_to", Database.VStr "admin@example.com") ].

(** [get_settings] returns a copy of [self.settings]. *)
Definition get_settings (settings : Py.dict Database.setting_value)
    : Py.dict Database.setting_value :=
  settings.

(** [update_settings]: [self.settings.update(new_settings)]. *)
Definition update_settings (new_settings : Py.dict Database.setting_value)
    (settings : Py.dict Database.setting_value)
    : Py.dict Database.setting_value :=
  Py.dict_update settings new_settings.

End DatabaseMock.

(* ================================================================== *)
(** ** app/email_service.py *)

Module EmailService.

(** [send_alert_email]: any exception inside is turned into [False]. *)
Definition send_alert_email (env : Env) (settings : Settings) : M bool :=
  _ <- emit [EvSendAlertEmail] ;;
  try_except
    (status_code <-
       (match sg_send env with
        | inl e => raise e
        | inr c => ret c
        end) ;;
     if (status_code =? 200) || (status_code =? 201) || (status_code =? 202)
     then
       _ <- Database.save_email_alert env (mail_to settings) ;;
       ret true
     else ret false)
    (fun _ => ret false).

End EmailService.

(* ================================================================== *)
(** ** Result dicts of the engines *)

(** The dict returned by [run_check]. *)
Record CheckResult := mkCheckResult {
  checked_at : Z;
  cr_country : string;
  cr_reporting_context : string;
  cr_totals : ProductStatusCounts;
  cr_delta_disapproved : Z;            (* result["delta"]["disapproved"] *)
  cr_alert_sent : bool;
  cr_top_issues : list IssueCode
}.

(** The three shapes of the dict returned by [get_status_summary]. *)
Inductive Summary :=
| SummaryNoData
| SummaryError (message : string)
| SummaryData (status : string) (last_check : Z)
    (country reporting_context : string) (totals : ProductStatusCounts)
    (delta_disapproved : Z) (alert_sent : bool)
    (trend_24h : Engine.TrendDict) (checks_24h : nat).

(** The ["status"] key. *)
Definition summary_status (s : Summary) : string :=
  match s with
  | SummaryNoData => "no_data"
  | SummaryError _ => "error"
  | SummaryData status _ _ _ _ _ _ _ _ => status
  end.

(** One entry of the list returned by [get_alert_history]. *)
Record HistoryEntry := mkHistoryEntry {
  he_timestamp : Z;
  he_country : string;
  he_reporting_context : string;
  he_totals : ProductStatusCounts;
  he_delta_disapproved : Z;
  he_top_issues : list IssueCode
}.

Definition history_entry (snapshot : ProductStatusSnapshot) : HistoryEntry :=
  mkHistoryEntry (timestamp snapshot) (country snapshot)
    (reporting_context snapshot) (totals snapshot)
    (delta_disapproved snapshot) (top_issues snapshot).

(* ================================================================== *)
(** ** app/alert_service.py : the production engine *)

Module AlertService.

Definition _should_send_alert := Engine._should_send_alert.
Definition _calculate_trend := Engine._calculate_trend.

Definition run_check (env : Env) (settings : Settings) : M CheckResult :=
  try_except
    (api_response <-
       lift_log (MerchantAPI.get_aggregate_product_statuses
                   (http_script env)) ;;
     let current_totals :=
       MerchantAPI.parse_product_status_counts api_response in
     let top_issues := MerchantAPI.get_top_issue_codes api_response 5 in
     previous_snapshot <- Database.get_latest_snapshot env ;;
     let delta_disapproved :=
       match previous_snapshot with
       | Some previous =>
           disapproved current_totals - disapproved (totals previous)
       | None => 0
       end in
     let alert_sent :=
       _should_send_alert settings current_totals delta_disapproved in
     alert_sent <-
       (if alert_sent then
          email_success <- EmailService.send_alert_email env settings ;;
          if negb email_success then ret false else ret alert_sent
        else ret alert_sent) ;;
     let snapshot :=
       mkSnapshot (utcnow env) (alert_country settings)
         (alert_reporting_context settings) current_totals
         delta_disapproved alert_sent top_issues in
     _ <- Database.save_snapshot env snapshot ;;
     ret (mkCheckResult (timestamp snapshot) (country snapshot)
            (reporting_context snapshot) current_totals delta_disapproved
            alert_sent top_issues))
    (fun e => raise e).

Definition get_status_summary (env : Env) : M Summary :=
  try_except
    (latest_snapshot <- Database.get_latest_snapshot env ;;
     match latest_snapshot with
     | None => ret SummaryNoData
     | Some latest =>
         snapshots_24h <- Database.get_snapshots_last_24h env ;;
         let trend := _calculate_trend snapshots_24h in
         ret (SummaryData
                (if negb (alert_sent latest) then "healthy" else "alert")
                (timestamp latest) (country latest)
                (reporting_context latest) (totals latest)
                (delta_disapproved latest) (alert_sent latest)
                trend (length snapshots_24h))
     end)
    (fun e => ret (SummaryError (str_exn e))).

Definition get_alert_history (env : Env) (limit : Z)
    : M (list HistoryEntry) :=
  try_except
    (alert_snapshots <- Database.get_alert_history env limit ;;
     ret (map history_entry alert_snapshots))
    (fun _ => ret []).

End AlertService.

(* ================================================================== *)
(** ** app/alert_service_dev.py : the development engine *)

Module AlertServiceDev.

Definition _should_send_alert := Engine._should_send_alert.
Definition _calculate_trend := Engine._calculate_trend.

Definition mock_totals : ProductStatusCounts :=
  mkCounts 1000 50 25 5 2 10 3.

Definition mock_issues : list IssueCode :=
  [ mkIssue "MISSING_GTIN" "Product is missing a GTIN" 10;
    mkIssue "IMAGE_LINK_BROKEN" "Product image link is broken" 8;
    mkIssue "INVALID_PRICE" "Product price is invalid" 5 ].

(** State passing over the mock store; nothing here raises. *)
Definition run_check (settings : Settings) (now : Z)
    (snapshots : DatabaseMock.Store) : CheckResult * DatabaseMock.Store :=
  let current_totals := mock_totals in
  let top_issues := mock_issues in
  let previous_snapshot := DatabaseMock.get_latest_snapshot snapshots in
  let delta_disapproved :=
    match previous_snapshot with
    | Some previous =>
        disapproved current_totals - disapproved (totals previous)
    | None => 5
    end in
  let alert_sent :=
    _should_send_alert settings current_totals delta_disapproved in
  let snapshot :=
    mkSnapshot now (alert_country settings)
      (alert_reporting_context settings) current_totals
      delta_disapproved alert_sent top_issues in
  let (_, snapshots') := DatabaseMock.save_snapshot snapshot snapshots in
  (mkCheckResult (timestamp snapshot) (country snapshot)
     (reporting_context snapshot) current_totals delta_disapproved
     alert_sent top_issues,
   snapshots').

(** [get_status_summary] over the mock store; its [except] clause is
    never reached, the mock store does not raise. *)
Definition get_status_summary (now : Z) (snapshots : DatabaseMock.Store)
    : Summary :=
  match DatabaseMock.get_latest_snapshot snapshots with
  | None => SummaryNoData
  | Some latest =>
      let snapshots_24h :=
        DatabaseMock.get_snapshots_last_24h now snapshots in
      let trend := _calculate_trend snapshots_24h in
      SummaryData
        (if negb (alert_sent latest) then "healthy" else "alert")
        (timestamp latest) (country latest) (reporting_context latest)
        (totals latest) (delta_disapproved latest) (alert_sent latest)
        trend (length snapshots_24h)
  end.

Definition get_alert_history (limit : Z) (snapshots : DatabaseMock.Store)
    : list HistoryEntry :=
  let alert_snapshots := DatabaseMock.get_alert_history limit snapshots in
  map history_entry alert_snapshots.

End AlertServiceDev.

(* ================================================================== *)
(** ** app/main.py : the history endpoint *)

Module Main.

(** What the HTTP layer answers: the JSON list, or a 500 with a detail. *)
Inductive http_result (A : Type) :=
| Ok200 (body : A)
| HTTPException (status_code : Z) (detail : string).
Arguments Ok200 {A} body.
Arguments HTTPException {A} status_code detail.

(** [GET /alerts/history?limit=N] *)
Definition get_alert_history (env : Env) (limit : Z) (w : World)
    : http_result (list HistoryEntry) * World :=
  let limit := if limit >? 50 then 50 else limit in
  match AlertService.get_alert_history env limit w with
  | (inr entries, w') => (Ok200 entries, w')
  | (inl e, w') => (HTTPException 500 (str_exn e), w')
  end.

(** [POST /tasks/run] *)
Definition run_check (env : Env) (settings : Settings) (w : World)
    : http_result CheckResult * World :=
  match AlertService.run_check env settings w with
  | (inr result, w') => (Ok200 result, w')
  | (inl e, w') => (HTTPException 500 (str_exn e), w')
  end.

(** [GET /status] *)
Definition get_status (env : Env) (w : World)
    : http_result Summary * World :=
  match AlertService.get_status_summary env w with
  | (inr summary, w') => (Ok200 summary, w')
  | (inl e, w') => (HTTPException 500 (str_exn e), w')
  end.

End Main.

(* ================================================================== *)
(** ** app/scheduler.py *)

Module Scheduler.

(** [_run_check_cycle]: one check, whose exception is logged and dropped. *)
Definition _run_check_cycle (env : Env) (settings : Settings) : M unit :=
  try_except
    (_ <- AlertService.run_check env settings ;; ret tt)
    (fun _ => ret tt).

(** [run_once] *)
Definition run_once (env : Env) (settings : Settings) : M unit :=
  _run_check_cycle env settings.

(** [SchedulerService(interval_minutes).interval_seconds] *)
Definition interval_seconds (interval_minutes : Z) : Z :=
  interval_minutes * 60.

(** [_scheduler_loop] for as many turns as the list has environments,
    one per cycle, after which [self.running] is taken to be false:
    a cycle, then the wait for the next interval.  A cycle does not
    raise, so the [except Exception] clause of the loop is not reached. *)
Fixpoint _scheduler_loop (interval_minutes : Z) (settings : Settings)
    (cycles : list Env) : M unit :=
  match cycles with
  | [] => ret tt
  | env :: rest =>
      _ <- _run_check_cycle env settings ;;
      _ <- emit [EvSleep (interval_seconds interval_minutes)] ;;
      _scheduler_loop interval_minutes settings rest
  end.

End Scheduler.


(* ================================================================== *)
(** * The specification's vocabulary *)

Module Spec.

Import MerchantAPI.

(** The problematic total. *)
Definition problematic (t : ProductStatusCounts) : Z :=
  disapproved t + suspended t + limited t.

(** Change between the first and the last snapshot of a window, and the
    label that goes with its sign. *)
Definition change_of (first_ last_ : ProductStatusSnapshot) : Z :=
  disapproved (totals last_) - disapproved (totals first_).

Definition label_of (change : Z) : Engine.trend_label :=
  match change ?= 0 with
  | Gt => Engine.increasing
  | Lt => Engine.decreasing
  | Eq => Engine.stable
  end.

(** An item's status matches a status name when the two agree up to
    letter case; an item without a status matches none. *)
Definition status_is (name : string) (item : StatusItem) : bool :=
  (Py.upper (Py.get (i_status item) "") =? Py.upper name)%string.

(** Sum of the counts of the items of a given status. *)
Definition total_for (name : string) (items : list StatusItem) : Z :=
  fold_right Z.add 0
    (map (fun item => Py.get (i_count item) 0)
       (filter (status_is name) items)).







(** Descending by key. *)
Definition key_desc {A} (key : A -> Z) (a b : A) : Prop := key a >= key b.

(** The report of the test suite, used as a running example. *)
Definition sample_report : ApiResponse :=
  mkResponse (Some
    [ mkItem (Some "APPROVED") (Some 1000) None;
      mkItem (Some "DISAPPROVED") (Some 25)
        (Some [ mkDetail (Some "MISSING_GTIN") (Some "...") (Some 15);
                mkDetail (Some "IMAGE_LINK_BROKEN") (Some "...") (Some 10) ]);
      mkItem (Some "LIMITED") (Some 5)
        (Some [ mkDetail (Some "INVALID_PRICE") (Some "...") (Some 5) ]) ]).


(** Most recent first. *)
Definition most_recent_first (a b : ProductStatusSnapshot) : Prop :=
  timestamp a >= timestamp b.

(** A response without an ["items"] key. *)
Definition empty_body : ApiResponse := mkResponse None.

(** What [send_alert_email] reports: the mail API answered 200, 201 or 202
    and the record of the e-mail could be stored. *)
Definition notifier_reports (env : Env) : bool :=
  match sg_send env with
  | inl _ => false
  | inr status_code =>
      ((status_code =? 200) || (status_code =? 201) || (status_code =? 202))
      && match db_raises env OpSaveEmailAlert with
         | None => true
         | Some _ => false
         end
  end.

(** The delta of a check against the previous snapshot, with the value
    used when there is none. *)
Definition delta_against (current : ProductStatusCounts)
    (previous : option ProductStatusSnapshot) (otherwise : Z) : Z :=
  match previous with
  | Some p => disapproved current - disapproved (totals p)
  | None => otherwise
  end.

(** A report with 60 disapproved products, answered at the first
    attempt, a store that never raises, and a mail API that answers with
    the given status. *)
Definition report_60 : ApiResponse :=
  mkResponse (Some [ mkItem (Some "DISAPPROVED") (Some 60) None ]).

Definition env_60 (mail_status : Z) : Env :=
  mkEnv (fun _ => Response 200 report_60) (fun _ => None)
    (inr mail_status) 1000.

Definition settings_50 : Settings :=
  mkSettings 50 10 "PL" "SHOPPING_ADS" "admin@example.com".

Definition empty_world : World := mkWorld [] [] [].

(** An environment whose every request times out. *)
Definition env_timeout : Env :=
  mkEnv (fun _ => RequestTimeout) (fun _ => None) (inr 202) 1000.

End Spec.

(* ================================================================== *)
(** * Further vocabulary *)

Module Facts.

Import MerchantAPI.

(** Outcomes that end the request loop whatever the attempt: a 200
    answer, and an authentication failure whose refresh raises too. *)
Definition is_200 (o : attempt_outcome) : bool :=
  match o with
  | Response status_code _ => status_code =? 200
  | _ => false
  end.

Definition refresh_raises (o : attempt_outcome) : bool :=
  match o with
  | AuthFailure true => true
  | _ => false
  end.

Definition is_auth_failure (o : attempt_outcome) : bool :=
  match o with
  | AuthFailure _ => true
  | _ => false
  end.

(** The longest sleep a turn of the loop can take on attempt [i]. *)
Definition longest_sleep (i : nat) : Z := 60 * 2 ^ Z.of_nat i.

(** Field by field sum of two counts. *)
Definition add_counts (a b : ProductStatusCounts) : ProductStatusCounts :=
  mkCounts (approved a + approved b) (pending a + pending b)
    (disapproved a + disapproved b) (limited a + limited b)
    (suspended a + suspended b) (under_review a + under_review b)
    (processing a + processing b).

(** A report made of the given items. *)
Definition report (items : list StatusItem) : ApiResponse :=
  mkResponse (Some items).


(** A response body without any key. *)
Definition no_body : ApiResponse := mkResponse None.

(** The [email_alerts] collection after a check that did or did not
    call the notifier. *)
Definition emails_after (env : Env) (settings : Settings) (notified : bool)
    (emails : list EmailAlert) : list EmailAlert :=
  if notified && Spec.notifier_reports env then
    emails ++ [mkEmailAlert (mail_to settings) (utcnow env)]
  else emails.

(** The environment of [Spec.env_60] with a store that refuses to save
    snapshots. *)
Definition env_60_no_save : Env :=
  mkEnv (fun _ => Response 200 Spec.report_60)
    (fun op =>
       match op with
       | OpSaveSnapshot => Some (GoogleCloudError "store unavailable")
       | _ => None
       end)
    (inr 202) 1000.

(** Orders on snapshots by time. *)
Definition oldest_first (a b : ProductStatusSnapshot) : Prop :=
  timestamp a <= timestamp b.

Definition strictly_older (a b : ProductStatusSnapshot) : Prop :=
  timestamp a < timestamp b.

(** A store filled in time order: every snapshot is strictly older than
    those stored after it. *)
Definition time_ordered (docs : list ProductStatusSnapshot) : Prop :=
  StronglySorted strictly_older docs.

(** The lower end of the 24-hour window. *)
Definition cutoff (now : Z) : Z := now - 24 * 3600.

(** An environment whose store never raises. *)
Definition store_answers (env : Env) : Prop :=
  forall op, db_raises env op = None.

(** A snapshot taken at a given time, with or without an alert. *)
Definition snapshot_at (t : Z) (sent : bool) : ProductStatusSnapshot :=
  mkSnapshot t "PL" "SHOPPING_ADS" no_counts 0 sent [].

Definition three_checks : World :=
  mkWorld [snapshot_at 100 true; snapshot_at 200 false; snapshot_at 300 true]
    [] [].

(** Two worlds with the same stored collections. *)
Definition same_store (w1 w2 : World) : Prop :=
  checks w1 = checks w2 /\ email_alerts w1 = email_alerts w2.

(** An environment of [Spec.env_60] at a later time. *)
Definition env_60_at (now : Z) : Env :=
  mkEnv (fun _ => Response 200 Spec.report_60) (fun _ => None)
    (inr 202) now.

End Facts.

(* ================================================================== *)
(** * Properties *)

(** ** The decision rule *)

Section DecisionRule.

Variable settings : Settings.

Lemma should_send_alert_true_iff totals delta :
  Engine._should_send_alert settings totals delta = true <->
  Spec.problematic totals > alert_threshold_abs settings \/
  delta >= alert_threshold_delta settings.
Proof.
  unfold Engine._should_send_alert, Spec.problematic.
  destruct (Z.gtb_spec (disapproved totals + suspended totals + limited totals)
              (alert_threshold_abs settings)) as [Habs | Habs].
  - split; [left; lia | reflexivity].
  - destruct (delta >=? alert_threshold_delta settings) eqn:Hd.
    + split; [right; apply Z.geb_le in Hd; lia | reflexivity].
    + split; [discriminate |].
      intros [H | H]; [lia |].
      apply Z.ge_le, Z.geb_le in H. congruence.
Qed.

(** C1. [_should_send_alert] answers true exactly when
    disapproved + suspended + limited exceeds [alert_threshold_abs]
    strictly, or the delta reaches [alert_threshold_delta]; below both
    thresholds it answers false.  Both engines share the rule. *)
Theorem should_send_alert_spec :
  forall (totals : ProductStatusCounts) (delta_disapproved : Z),
    (AlertService._should_send_alert settings totals delta_disapproved = true
     <-> (disapproved totals + suspended totals + limited totals
            > alert_threshold_abs settings
          \/ delta_disapproved >= alert_threshold_delta settings))
    /\ (disapproved totals + suspended totals + limited totals
          <= alert_threshold_abs settings
        /\ delta_disapproved < alert_threshold_delta settings
        -> AlertService._should_send_alert settings totals delta_disapproved
           = false)
    /\ AlertServiceDev._should_send_alert settings totals delta_disapproved
       = AlertService._should_send_alert settings totals delta_disapproved.
Proof.
  intros totals delta.
  pose proof (should_send_alert_true_iff totals delta) as Hiff.
  unfold Spec.problematic in Hiff.
  unfold AlertService._should_send_alert, AlertServiceDev._should_send_alert.
  split; [exact Hiff | split; [| reflexivity]].
  intros [Habs Hdelta].
  apply not_true_is_false. intros E. apply Hiff in E. lia.
Qed.

End DecisionRule.

(** ** The trend *)

Section Trend.

Import Engine.

Lemma sign_label change :
  (if change >? 0 then increasing
   else if change <? 0 then decreasing else stable) = Spec.label_of change.
Proof.
  unfold Spec.label_of, Z.gtb, Z.ltb. now destruct (change ?= 0).
Qed.

Lemma last_middle {A} (mid : list A) (a b d : A) :
  last (a :: mid ++ [b]) d = b.
Proof.
  change (a :: mid ++ [b]) with ((a :: mid) ++ [b]). apply last_last.
Qed.

Lemma calculate_trend_short l :
  (length l < 2)%nat ->
  _calculate_trend l = mkTrend insufficient_data 0 None.
Proof.
  intros H. unfold _calculate_trend.
  destruct (Z.ltb_spec (Z.of_nat (length l)) 2); [reflexivity | lia].
Qed.

Lemma calculate_trend_ends first_ mid last_ :
  _calculate_trend (first_ :: mid ++ [last_]) =
  mkTrend (Spec.label_of (Spec.change_of first_ last_))
    (Spec.change_of first_ last_) (Some "24h").
Proof.
  unfold _calculate_trend.
  destruct (Z.ltb_spec (Z.of_nat (length (first_ :: mid ++ [last_]))) 2)
    as [H | H].
  - cbn [length] in H. rewrite length_app in H. cbn [length] in H. lia.
  - rewrite last_middle, sign_label. reflexivity.
Qed.

(** Every list of at least two snapshots is a first one, a middle and a
    last one. *)
Lemma two_or_more {A} (l : list A) :
  (2 <= length l)%nat -> exists a mid b, l = a :: mid ++ [b].
Proof.
  destruct l as [| a l]; cbn [length]; [lia |].
  intros H. destruct (exists_last (l := l)) as (mid & b & ->).
  - intros ->. cbn in H. lia.
  - now exists a, mid, b.
Qed.

(** C7. Fewer than two snapshots give [insufficient_data] with change 0;
    otherwise the change is last.disapproved - first.disapproved and the
    label follows its sign; the snapshots in between play no part. *)
Theorem calculate_trend_spec :
  (forall l, (length l < 2)%nat ->
     trend (AlertService._calculate_trend l) = insufficient_data /\
     change (AlertService._calculate_trend l) = 0)
  /\ (forall l, (2 <= length l)%nat ->
        exists first_ mid last_,
          l = first_ :: mid ++ [last_] /\
          let c := disapproved (totals last_)
                   - disapproved (totals first_) in
          change (AlertService._calculate_trend l) = c /\
          (c > 0 -> trend (AlertService._calculate_trend l) = increasing) /\
          (c < 0 -> trend (AlertService._calculate_trend l) = decreasing) /\
          (c = 0 -> trend (AlertService._calculate_trend l) = stable))
  /\ (forall first_ last_ mid mid',
        AlertService._calculate_trend (first_ :: mid ++ [last_]) =
        AlertService._calculate_trend (first_ :: mid' ++ [last_]))
  /\ (forall l, AlertServiceDev._calculate_trend l
                = AlertService._calculate_trend l).
Proof.
  unfold AlertService._calculate_trend, AlertServiceDev._calculate_trend.
  repeat split.
  - now rewrite calculate_trend_short.
  - now rewrite calculate_trend_short.
  - intros l Hlen. destruct (two_or_more l Hlen) as (a & mid & b & ->).
    exists a, mid, b. split; [reflexivity |].
    rewrite calculate_trend_ends. cbn [trend change].
    fold (Spec.change_of a b). unfold Spec.label_of.
    repeat split; intros Hc.
    + apply Z.gt_lt, Z.compare_gt_iff in Hc. now rewrite Hc.
    + apply Z.compare_lt_iff in Hc. now rewrite Hc.
    + now rewrite Hc.
  - intros. now rewrite !calculate_trend_ends.
Qed.

End Trend.

(** ** Parsing the status report *)

Section ParseCounts.

Import MerchantAPI.

(** The loop of [parse_product_status_counts], started from any counts,
    adds to each field the total of the items of that status. *)
Lemma fold_parse_item items : forall acc,
  fold_left parse_item items acc =
  mkCounts (approved acc + Spec.total_for "approved" items)
    (pending acc + Spec.total_for "pending" items)
    (disapproved acc + Spec.total_for "disapproved" items)
    (limited acc + Spec.total_for "limited" items)
    (suspended acc + Spec.total_for "suspended" items)
    (under_review acc + Spec.total_for "under_review" items)
    (processing acc + Spec.total_for "processing" items).
Proof.
  induction items as [| item items IH]; intros acc.
  - destruct acc. unfold Spec.total_for. cbn. f_equal; lia.
  - cbn [fold_left]. rewrite IH. clear IH.
    unfold Spec.total_for, Spec.status_is, parse_item.
    cbn [filter].
    change (Py.upper "approved") with "APPROVED".
    change (Py.upper "pending") with "PENDING".
    change (Py.upper "disapproved") with "DISAPPROVED".
    change (Py.upper "limited") with "LIMITED".
    change (Py.upper "suspended") with "SUSPENDED".
    change (Py.upper "under_review") with "UNDER_REVIEW".
    change (Py.upper "processing") with "PROCESSING".
    set (status := Py.upper (Py.get (i_status item) "")).
    set (n := Py.get (i_count item) 0).
    destruct (String.eqb_spec status "APPROVED") as [-> | _];
      [cbn; f_equal; lia |].
    destruct (String.eqb_spec status "PENDING") as [-> | _];
      [cbn; f_equal; lia |].
    destruct (String.eqb_spec status "DISAPPROVED") as [-> | _];
      [cbn; f_equal; lia |].
    destruct (String.eqb_spec status "LIMITED") as [-> | _];
      [cbn; f_equal; lia |].
    destruct (String.eqb_spec status "SUSPENDED") as [-> | _];
      [cbn; f_equal; lia |].
    destruct (String.eqb_spec status "UNDER_REVIEW") as [-> | _];
      [cbn; f_equal; lia |].
    destruct (String.eqb_spec status "PROCESSING") as [-> | _];
      [cbn; f_equal; lia |].
    reflexivity.
Qed.

Lemma total_for_app name l1 l2 :
  Spec.total_for name (l1 ++ l2) =
  Spec.total_for name l1 + Spec.total_for name l2.
Proof.
  unfold Spec.total_for. rewrite filter_app, map_app.
  induction (map _ (filter _ l1)) as [| x xs IH]; cbn; [reflexivity | lia].
Qed.



End ParseCounts.

(** ** The stable descending sort *)

Section SortReverse.

Context {A : Type} (key : A -> Z).

Lemma insert_desc_perm x l :
  Permutation (Py.insert_desc key x l) (x :: l).
Proof.
  induction l as [| y ys IH]; cbn; [apply Permutation_refl |].
  destruct (key x <? key y).
  - rewrite IH. apply perm_swap.
  - apply Permutation_refl.
Qed.

Lemma sort_reverse_perm l : Permutation (Py.sort_reverse key l) l.
Proof.
  induction l as [| x xs IH]; cbn; [constructor |].
  rewrite insert_desc_perm. now constructor.
Qed.

Lemma insert_desc_sorted x l :
  StronglySorted (Spec.key_desc key) l ->
  StronglySorted (Spec.key_desc key) (Py.insert_desc key x l).
Proof.
  induction 1 as [| y ys Hs IH Hall]; cbn.
  - repeat constructor.
  - destruct (Z.ltb_spec (key x) (key y)) as [Hlt | Hge].
    + constructor; [exact IH |].
      apply (Permutation_Forall (Permutation_sym (insert_desc_perm x ys))).
      constructor; [unfold Spec.key_desc; lia | exact Hall].
    + constructor; [now constructor |].
      constructor; [unfold Spec.key_desc; lia |].
      eapply Forall_impl; [| exact Hall].
      unfold Spec.key_desc. intros; lia.
Qed.

Lemma sort_reverse_sorted l :
  StronglySorted (Spec.key_desc key) (Py.sort_reverse key l).
Proof.
  induction l as [| x xs IH]; cbn; [constructor |].
  now apply insert_desc_sorted.
Qed.



End SortReverse.

(** ** The top issues *)

Section TopIssues.

Import MerchantAPI.




Lemma slice_to_firstn {A} (l : list A) (stop : Z) :
  0 <= stop -> Py.slice_to l stop = firstn (Z.to_nat stop) l.
Proof.
  intros H. unfold Py.slice_to.
  destruct (Z.ltb_spec stop 0); [lia | reflexivity].
Qed.



Example sample_counts_example :
  parse_product_status_counts Spec.sample_report = mkCounts 1000 0 25 5 0 0 0.
Proof. reflexivity. Qed.

Example sample_top3_example :
  get_top_issue_codes Spec.sample_report 3 =
  [ mkIssue "MISSING_GTIN" "..." 15; mkIssue "IMAGE_LINK_BROKEN" "..." 10;
    mkIssue "INVALID_PRICE" "..." 5 ].
Proof. reflexivity. Qed.

(** Equal counts keep the order of the report, and entries that share a
    code are not merged. *)
Example equal_counts_keep_order :
  get_top_issue_codes
    (mkResponse (Some
       [ mkItem (Some "limited") None
           (Some [ mkDetail (Some "A") None (Some 2);
                   mkDetail (Some "B") None (Some 7);
                   mkDetail (Some "") None (Some 9);
                   mkDetail (Some "C") None (Some 0) ]);
         mkItem (Some "Suspended") None
           (Some [ mkDetail (Some "A") None (Some 7);
                   mkDetail (Some "D") None (Some 2) ]) ]))
    5
  = [ mkIssue "B" "" 7; mkIssue "A" "" 7; mkIssue "A" "" 2; mkIssue "D" "" 2 ].
Proof. reflexivity. Qed.

End TopIssues.

(** ** The retrying request loop *)

Section MakeRequest.

Import MerchantAPI.

Variable script : nat -> attempt_outcome.
Variable max_retries : Z.

(** A turn of the loop issues at most one request. *)
Lemma attempt_body_requests attempt o :
  (count_events is_request (fst (attempt_body max_retries attempt o)) <= 1)%nat.
Proof.
  unfold attempt_body, try_block, handlers, raise_for_status.
  destruct o as [[] | | msg | status body]; cbn;
    repeat match goal with
           | |- context [if ?c then _ else _] => destruct c; cbn
           end; lia.
Qed.

Lemma count_events_app p l1 l2 :
  count_events p (l1 ++ l2) = (count_events p l1 + count_events p l2)%nat.
Proof. unfold count_events. now rewrite filter_app, length_app. Qed.

Lemma for_attempts_requests range :
  (count_events is_request (fst (for_attempts script max_retries range))
   <= length range)%nat.
Proof.
  induction range as [| attempt rest IH]; cbn [for_attempts]; [cbn; lia |].
  pose proof (attempt_body_requests attempt (script attempt)) as H1.
  destruct (attempt_body max_retries attempt (script attempt)) as [evs st].
  cbn [fst] in H1.
  destruct st; cbn [fst length]; try lia.
  destruct (for_attempts script max_retries rest) as [evs' r].
  cbn [fst] in *. rewrite count_events_app. lia.
Qed.

(** At most [max_retries] requests are issued. *)
Lemma make_request_bounded :
  (count_events is_request (fst (_make_request script max_retries))
   <= Z.to_nat max_retries)%nat.
Proof.
  unfold _make_request.
  etransitivity; [apply for_attempts_requests |].
  now rewrite length_seq.
Qed.

(** Only a 200 answer, met within the bound, makes the call return. *)
Lemma attempt_body_return attempt o body :
  snd (attempt_body max_retries attempt o) = Return body ->
  o = Response 200 body.
Proof.
  unfold attempt_body, try_block, handlers, raise_for_status.
  destruct o as [[] | | msg | status body']; cbn;
    repeat match goal with
           | |- context [if ?c then _ else _] => destruct c eqn:?; cbn
           end; try discriminate.
  intros [= ->]. f_equal. now apply Z.eqb_eq.
Qed.

Lemma for_attempts_return range body :
  snd (for_attempts script max_retries range) = inr body ->
  exists attempt, In attempt range /\ script attempt = Response 200 body.
Proof.
  induction range as [| attempt rest IH]; cbn [for_attempts];
    [discriminate |].
  pose proof (attempt_body_return attempt (script attempt)) as H1.
  destruct (attempt_body max_retries attempt (script attempt)) as [evs st].
  cbn [snd] in H1.
  destruct st as [| body' | e]; cbn [snd].
  - destruct (for_attempts script max_retries rest) as [evs' r].
    cbn [snd] in *. intros H. destruct (IH H) as (a & Ha & Hs).
    exists a. split; [now right | exact Hs].
  - intros [= ->]. exists attempt. split; [now left | now apply H1].
  - discriminate.
Qed.

Lemma make_request_return body :
  snd (_make_request script max_retries) = inr body ->
  exists attempt,
    Z.of_nat attempt < max_retries /\ script attempt = Response 200 body.
Proof.
  intros H. destruct (for_attempts_return _ _ H) as (a & Ha & Hs).
  exists a. split; [| exact Hs]. apply in_seq in Ha. lia.
Qed.

(** When no turn ends the loop early, the final [raise] is reached. *)
Lemma for_attempts_exhausted range :
  (forall attempt, In attempt range ->
     snd (attempt_body max_retries attempt (script attempt)) = Continue) ->
  snd (for_attempts script max_retries range) = inl (exhausted max_retries).
Proof.
  induction range as [| attempt rest IH]; intros Hall; cbn [for_attempts];
    [reflexivity |].
  pose proof (Hall attempt (or_introl eq_refl)) as H1.
  destruct (attempt_body max_retries attempt (script attempt)) as [evs st].
  cbn [snd] in H1. subst st.
  specialize (IH (fun a Ha => Hall a (or_intror Ha))).
  destruct (for_attempts script max_retries rest) as [evs' r]. exact IH.
Qed.

(** The back-off after each kind of answer, on attempt [i]. *)
Lemma backoff_rate_limited i body :
  attempt_body max_retries i (Response 429 body) =
  ([EvRequest i; EvSleep (60 * 2 ^ Z.of_nat i)], Continue).
Proof.
  unfold attempt_body. cbn. now rewrite Z.mul_comm.
Qed.

Lemma backoff_server_error i status body :
  500 <= status ->
  attempt_body max_retries i (Response status body) =
  ([EvRequest i; EvSleep (10 * 2 ^ Z.of_nat i)], Continue).
Proof.
  intros H. unfold attempt_body, try_block.
  destruct (Z.eqb_spec status 200); [lia |].
  destruct (Z.eqb_spec status 429); [lia |].
  destruct (Z.geb_spec status 500); [| lia].
  now rewrite Z.mul_comm.
Qed.

Lemma backoff_timeout i :
  Z.of_nat i < max_retries - 1 ->
  attempt_body max_retries i RequestTimeout =
  ([EvRequest i; EvSleep (5 * 2 ^ Z.of_nat i)], Continue).
Proof.
  intros H. unfold attempt_body. cbn.
  destruct (Z.ltb_spec (Z.of_nat i) (max_retries - 1)); [| lia].
  cbn. now rewrite Z.mul_comm.
Qed.

Lemma timeout_on_last_attempt i :
  max_retries - 1 <= Z.of_nat i ->
  attempt_body max_retries i RequestTimeout =
  ([EvRequest i], Raise TimeoutException).
Proof.
  intros H. unfold attempt_body. cbn.
  destruct (Z.ltb_spec (Z.of_nat i) (max_retries - 1)); [lia | reflexivity].
Qed.

(** An authentication failure: one refresh, no request, no sleep. *)
Lemma auth_failure_refreshes_once i :
  Z.of_nat i < max_retries - 1 ->
  attempt_body max_retries i (AuthFailure false) =
  ([EvRefreshToken], Continue).
Proof.
  intros H. unfold attempt_body. cbn.
  destruct (Z.ltb_spec (Z.of_nat i) (max_retries - 1)); [| lia].
  reflexivity.
Qed.

(** A client error other than 429 is caught by the last [except] clause:
    before the last attempt it is followed by a sleep and a new attempt. *)
Lemma client_error_is_retried i status body :
  400 <= status < 500 -> status <> 429 ->
  Z.of_nat i < max_retries - 1 ->
  attempt_body max_retries i (Response status body) =
  ([EvRequest i; EvSleep (5 * 2 ^ Z.of_nat i)], Continue).
Proof.
  intros Hs H429 Hi. unfold attempt_body, try_block, raise_for_status.
  destruct (Z.eqb_spec status 200); [lia |].
  destruct (Z.eqb_spec status 429); [lia |].
  destruct (Z.geb_spec status 500); [lia |].
  destruct (Z.leb_spec 200 status); [| lia].
  destruct (Z.leb_spec status 299); [lia |].
  cbn.
  destruct (Z.ltb_spec (Z.of_nat i) (max_retries - 1)); [| lia].
  cbn. now rewrite Z.mul_comm.
Qed.

End MakeRequest.

Section MakeRequestRuns.

Import MerchantAPI.

(** C4. A 400 answer on every attempt, with the default bound of 3: the
    loop sleeps 5 s and 10 s and issues three requests before the error
    leaves it, where the claim has the first 400 fail at once. *)
Theorem make_request_client_error_run :
  _make_request (fun _ => Response 400 Spec.empty_body) default_max_retries =
  ([EvRequest 0; EvSleep 5; EvRequest 1; EvSleep 10; EvRequest 2],
   inl (HTTPStatusError 400))
  /\ count_events is_request
       (fst (_make_request (fun _ => Response 400 Spec.empty_body)
               default_max_retries)) = 3%nat
  /\ slept (fst (_make_request (fun _ => Response 400 Spec.empty_body)
                   default_max_retries)) = 15.
Proof. repeat split. Qed.

Example make_request_rate_limited_run :
  _make_request (fun _ => Response 429 Spec.empty_body) 3 =
  ([EvRequest 0; EvSleep 60; EvRequest 1; EvSleep 120; EvRequest 2;
    EvSleep 240],
   inl (Exception "Failed to make API request after 3 attempts")).
Proof. reflexivity. Qed.

Example make_request_server_error_then_ok :
  _make_request
    (fun i => match i with
              | O => Response 503 Spec.empty_body
              | _ => Response 200 Spec.sample_report
              end) 3 =
  ([EvRequest 0; EvSleep 10; EvRequest 1], inr Spec.sample_report).
Proof. reflexivity. Qed.

Example make_request_timeout_run :
  _make_request (fun _ => RequestTimeout) 3 =
  ([EvRequest 0; EvSleep 5; EvRequest 1; EvSleep 10; EvRequest 2],
   inl TimeoutException).
Proof. reflexivity. Qed.

Example make_request_auth_then_ok :
  _make_request
    (fun i => match i with
              | O => AuthFailure false
              | _ => Response 200 Spec.sample_report
              end) 3 =
  ([EvRefreshToken; EvRequest 1], inr Spec.sample_report).
Proof. reflexivity. Qed.

End MakeRequestRuns.

(** ** The check run *)

Section RunCheck.

Variable env : Env.
Variable settings : Settings.

(** The notifier never raises; it logs its call and reports. *)
Lemma send_alert_email_run w :
  exists emails,
    EmailService.send_alert_email env settings w =
    (inr (Spec.notifier_reports env),
     mkWorld (checks w) emails (trace w ++ [EvSendAlertEmail])).
Proof.
  unfold EmailService.send_alert_email, Spec.notifier_reports, bind,
    try_except, emit, Database.save_email_alert, Database.store_call,
    raise, ret.
  destruct (sg_send env) as [e | c]; cbn; [eauto |].
  destruct ((c =? 200) || (c =? 201) || (c =? 202)); cbn; [| eauto].
  destruct (db_raises env OpSaveEmailAlert); cbn; eauto.
Qed.

Lemma get_latest_snapshot_world w :
  snd (Database.get_latest_snapshot env w) = w.
Proof.
  unfold Database.get_latest_snapshot, Database.store_call, raise.
  now destruct (db_raises env OpGetLatest).
Qed.

(** A failed fetch leaves [run_check] with the same exception, and only
    the trace has grown. *)
Lemma run_check_fetch_raises w evs e :
  MerchantAPI.get_aggregate_product_statuses (http_script env) = (evs, inl e) ->
  AlertService.run_check env settings w =
  (inl e, mkWorld (checks w) (email_alerts w) (trace w ++ evs)).
Proof.
  intros Hfetch.
  unfold AlertService.run_check, try_except, bind, lift_log, raise.
  now rewrite Hfetch.
Qed.

(** A full run: the fetch answers, the store reads and writes. *)
Lemma run_check_completes w evs api_response previous :
  MerchantAPI.get_aggregate_product_statuses (http_script env)
    = (evs, inr api_response) ->
  fst (Database.get_latest_snapshot env w) = inr previous ->
  db_raises env OpSaveSnapshot = None ->
  let current_totals :=
    MerchantAPI.parse_product_status_counts api_response in
  let top := MerchantAPI.get_top_issue_codes api_response 5 in
  let delta := Spec.delta_against current_totals previous 0 in
  let decision :=
    AlertService._should_send_alert settings current_totals delta in
  let sent := decision && Spec.notifier_reports env in
  let saved :=
    mkSnapshot (utcnow env) (alert_country settings)
      (alert_reporting_context settings) current_totals delta sent top in
  exists emails,
    AlertService.run_check env settings w =
    (inr (mkCheckResult (utcnow env) (alert_country settings)
            (alert_reporting_context settings) current_totals delta sent top),
     mkWorld (checks w ++ [saved]) emails
       (trace w ++ evs ++ if decision then [EvSendAlertEmail] else [])).
Proof.
  intros Hfetch Hlatest Hsave current_totals top delta decision sent saved.
  unfold AlertService.run_check, try_except, bind, lift_log.
  rewrite Hfetch. cbn [fst snd].
  set (w1 := mkWorld (checks w) (email_alerts w) (trace w ++ evs)).
  assert (Hl1 : Database.get_latest_snapshot env w1 = (inr previous, w1)).
  { revert Hlatest.
    unfold Database.get_latest_snapshot, Database.store_call, raise.
    destruct (db_raises env OpGetLatest); cbn; [discriminate |].
    now intros [= <-]. }
  rewrite Hl1.
  fold current_totals. fold top.
  change (match previous with
          | Some previous0 =>
              disapproved current_totals - disapproved (totals previous0)
          | None => 0
          end) with delta.
  fold decision.
  unfold Database.save_snapshot, Database.store_call. rewrite Hsave.
  subst sent saved. destruct decision; cbn [andb].
  - destruct (send_alert_email_run w1) as [emails ->].
    exists emails. unfold ret. cbn.
    destruct (Spec.notifier_reports env); cbn;
      now rewrite <- app_assoc.
  - exists (email_alerts w). unfold ret. cbn. now rewrite app_nil_r.
Qed.

(** The snapshots of the store change only by a run whose fetch answered. *)
Lemma run_check_store w :
  checks (snd (AlertService.run_check env settings w)) = checks w
  \/ exists evs api_response,
       MerchantAPI.get_aggregate_product_statuses (http_script env)
       = (evs, inr api_response).
Proof.
  destruct (MerchantAPI.get_aggregate_product_statuses (http_script env))
    as [evs [e | api_response]] eqn:Hfetch.
  - left. now rewrite (run_check_fetch_raises w evs e Hfetch).
  - right. eauto.
Qed.

End RunCheck.

Section RunCheckClaims.

Import MerchantAPI.

(** The request loop never calls the notifier. *)
Lemma attempt_body_no_notify max_retries attempt o :
  count_events is_notify (fst (attempt_body max_retries attempt o)) = 0%nat.
Proof.
  unfold attempt_body, try_block, handlers, raise_for_status.
  destruct o as [[] | | msg | status body]; cbn;
    repeat match goal with
           | |- context [if ?c then _ else _] => destruct c; cbn
           end; reflexivity.
Qed.

Lemma for_attempts_no_notify script max_retries range :
  count_events is_notify (fst (for_attempts script max_retries range)) = 0%nat.
Proof.
  induction range as [| attempt rest IH]; cbn [for_attempts]; [reflexivity |].
  pose proof (attempt_body_no_notify max_retries attempt (script attempt))
    as H1.
  destruct (attempt_body max_retries attempt (script attempt)) as [evs st].
  cbn [fst] in H1.
  destruct st; cbn [fst]; try exact H1.
  destruct (for_attempts script max_retries rest) as [evs' r].
  cbn [fst] in *. rewrite count_events_app. lia.
Qed.

Lemma fetch_no_notify script :
  count_events is_notify (fst (get_aggregate_product_statuses script)) = 0%nat.
Proof. apply for_attempts_no_notify. Qed.

(** C2 (as the code has it). In the production engine the persisted
    delta is current.disapproved - previous.disapproved when the store
    has a previous snapshot and 0 when it has none.  In the development
    engine it is the same difference (on the mock totals) when there is a
    previous snapshot, and the mock value 5 when there is none. *)
Theorem run_check_delta :
  (forall env settings w evs api_response previous,
     get_aggregate_product_statuses (http_script env)
     = (evs, inr api_response) ->
     fst (Database.get_latest_snapshot env w) = inr previous ->
     db_raises env OpSaveSnapshot = None ->
     exists saved,
       checks (snd (AlertService.run_check env settings w))
       = checks w ++ [saved]
       /\ delta_disapproved saved =
          match previous with
          | Some p =>
              disapproved (parse_product_status_counts api_response)
              - disapproved (totals p)
          | None => 0
          end)
  /\ (forall settings now snapshots,
        exists saved,
          snd (AlertServiceDev.run_check settings now snapshots)
          = snapshots ++ [saved]
          /\ delta_disapproved saved =
             match DatabaseMock.get_latest_snapshot snapshots with
             | Some p =>
                 disapproved AlertServiceDev.mock_totals
                 - disapproved (totals p)
             | None => 5
             end).
Proof.
  split.
  - intros env settings w evs api_response previous Hfetch Hlatest Hsave.
    destruct (run_check_completes env settings w evs api_response previous
                Hfetch Hlatest Hsave) as [emails ->].
    cbn [snd checks]. eexists. split; [reflexivity |].
    cbn [delta_disapproved]. reflexivity.
  - intros settings now snapshots.
    unfold AlertServiceDev.run_check, DatabaseMock.save_snapshot.
    cbn [snd]. eexists. split; [reflexivity |].
    cbn [delta_disapproved]. reflexivity.
Qed.

(** C2, the claim as written, fails on the development engine: its first
    run, on an empty store, persists a delta of 5, not 0. *)
Lemma dev_first_run_delta_is_5 :
  DatabaseMock.get_latest_snapshot [] = None
  /\ map delta_disapproved
       (snd (AlertServiceDev.run_check default_settings 1000 [])) = [5]
  /\ 5 <> 0.
Proof. repeat split. discriminate. Qed.

Example prod_first_run_delta_is_0 :
  map delta_disapproved
    (checks (snd (AlertService.run_check (Spec.env_60 202) Spec.settings_50
                    Spec.empty_world))) = [0].
Proof. reflexivity. Qed.

Example prod_second_run_delta :
  let w1 := snd (AlertService.run_check (Spec.env_60 202) Spec.settings_50
                   Spec.empty_world) in
  let env2 :=
    mkEnv (fun _ => Response 200 Spec.sample_report) (fun _ => None)
      (inr 202) 2000 in
  map delta_disapproved
    (checks (snd (AlertService.run_check env2 Spec.settings_50 w1)))
  = [0; -35].
Proof. reflexivity. Qed.

(** C3. When the fetch and the store answer and the decision rule says
    true, [run_check] calls the notifier exactly once, returns normally,
    and appends one snapshot whose [alert_sent] is what the notifier
    reported: true on success, false on failure. *)
Theorem run_check_alert_flag :
  forall env settings w evs api_response previous,
    get_aggregate_product_statuses (http_script env)
    = (evs, inr api_response) ->
    fst (Database.get_latest_snapshot env w) = inr previous ->
    db_raises env OpSaveSnapshot = None ->
    AlertService._should_send_alert settings
      (parse_product_status_counts api_response)
      (match previous with
       | Some p =>
           disapproved (parse_product_status_counts api_response)
           - disapproved (totals p)
       | None => 0
       end) = true ->
    exists result w' saved,
      AlertService.run_check env settings w = (inr result, w')
      /\ checks w' = checks w ++ [saved]
      /\ count_events is_notify (trace w')
         = S (count_events is_notify (trace w))
      /\ (forall w0, fst (EmailService.send_alert_email env settings w0)
                     = inr (Spec.notifier_reports env))
      /\ alert_sent saved = Spec.notifier_reports env
      /\ cr_alert_sent result = Spec.notifier_reports env.
Proof.
  intros env settings w evs api_response previous Hfetch Hlatest Hsave Hrule.
  destruct (run_check_completes env settings w evs api_response previous
              Hfetch Hlatest Hsave) as [emails Hrun].
  cbv zeta in Hrun. unfold Spec.delta_against in Hrun.
  rewrite Hrule in Hrun. cbn [andb] in Hrun.
  do 3 eexists. split; [exact Hrun |].
  cbn [checks trace alert_sent cr_alert_sent].
  split; [reflexivity |].
  split.
  - rewrite !count_events_app.
    pose proof (fetch_no_notify (http_script env)) as Hn.
    rewrite Hfetch in Hn. cbn [fst] in Hn. rewrite Hn. cbn. lia.
  - split; [| split; reflexivity].
    intros w0. now destruct (send_alert_email_run env settings w0) as [? ->].
Qed.

(** 60 disapproved products against an absolute threshold of 50: the
    mail API accepts the message. *)
Lemma run_check_alert_flag_witness :
  exists result w' saved,
    AlertService.run_check (Spec.env_60 202) Spec.settings_50
      Spec.empty_world = (inr result, w')
    /\ checks w' = checks Spec.empty_world ++ [saved]
    /\ count_events is_notify (trace w')
       = S (count_events is_notify (trace Spec.empty_world))
    /\ (forall w0,
          fst (EmailService.send_alert_email (Spec.env_60 202)
                 Spec.settings_50 w0)
          = inr (Spec.notifier_reports (Spec.env_60 202)))
    /\ alert_sent saved = Spec.notifier_reports (Spec.env_60 202)
    /\ cr_alert_sent result = Spec.notifier_reports (Spec.env_60 202).
Proof.
  apply (run_check_alert_flag (Spec.env_60 202) Spec.settings_50
           Spec.empty_world [EvRequest 0] Spec.report_60 None);
    reflexivity.
Defined.

Example run_check_60_mail_accepted :
  AlertService.run_check (Spec.env_60 202) Spec.settings_50 Spec.empty_world =
  (inr (mkCheckResult 1000 "PL" "SHOPPING_ADS" (mkCounts 0 0 60 0 0 0 0) 0
          true []),
   mkWorld
     [ mkSnapshot 1000 "PL" "SHOPPING_ADS" (mkCounts 0 0 60 0 0 0 0) 0
         true [] ]
     [ mkEmailAlert "admin@example.com" 1000 ]
     [ EvRequest 0; EvSendAlertEmail ]).
Proof. reflexivity. Qed.

Example run_check_60_mail_refused :
  AlertService.run_check (Spec.env_60 500) Spec.settings_50 Spec.empty_world =
  (inr (mkCheckResult 1000 "PL" "SHOPPING_ADS" (mkCounts 0 0 60 0 0 0 0) 0
          false []),
   mkWorld
     [ mkSnapshot 1000 "PL" "SHOPPING_ADS" (mkCounts 0 0 60 0 0 0 0) 0
         false [] ]
     []
     [ EvRequest 0; EvSendAlertEmail ]).
Proof. reflexivity. Qed.

(** C8. When the fetch raises, [run_check] raises the same exception and
    both collections of the store are as they were; the snapshots of the
    store differ after a run only if the fetch answered. *)
Theorem run_check_fetch_failure :
  forall env settings w,
    (forall evs e,
       get_aggregate_product_statuses (http_script env) = (evs, inl e) ->
       fst (AlertService.run_check env settings w) = inl e
       /\ checks (snd (AlertService.run_check env settings w)) = checks w
       /\ email_alerts (snd (AlertService.run_check env settings w))
          = email_alerts w)
    /\ (checks (snd (AlertService.run_check env settings w)) <> checks w ->
        exists evs api_response,
          get_aggregate_product_statuses (http_script env)
          = (evs, inr api_response)).
Proof.
  intros env settings w. split.
  - intros evs e Hfetch.
    rewrite (run_check_fetch_raises env settings w evs e Hfetch).
    now repeat split.
  - intros Hneq. destruct (run_check_store env settings w) as [H | H];
      [contradiction | exact H].
Qed.

Example run_check_all_timeouts :
  AlertService.run_check Spec.env_timeout Spec.settings_50 Spec.empty_world =
  (inl TimeoutException,
   mkWorld [] []
     [EvRequest 0; EvSleep 5; EvRequest 1; EvSleep 10; EvRequest 2]).
Proof. reflexivity. Qed.

End RunCheckClaims.

(** ** Status summary and alert history *)

Section ReadOperations.

Variable env : Env.

Lemma firstn_Forall {A} (P : A -> Prop) n (l : list A) :
  Forall P l -> Forall P (firstn n l).
Proof.
  intros H. revert n. induction H as [| x xs Hx Hxs IH]; intros [| n]; cbn;
    constructor; auto.
Qed.

Lemma firstn_sorted {A} (R : A -> A -> Prop) n (l : list A) :
  StronglySorted R l -> StronglySorted R (firstn n l).
Proof.
  intros H. revert n. induction H as [| x xs Hs IH Hall]; intros [| n]; cbn;
    constructor; auto using firstn_Forall.
Qed.

(** What the store's history query answers when it answers. *)
Lemma store_history_answer limit w snapshots :
  fst (Database.get_alert_history env limit w) = inr snapshots ->
  (length snapshots <= Z.to_nat limit)%nat
  /\ Forall (fun s => In s (checks w) /\ alert_sent s = true) snapshots
  /\ StronglySorted Spec.most_recent_first snapshots.
Proof.
  unfold Database.get_alert_history, Database.store_call, raise,
    Database.order_by_desc.
  destruct (db_raises env OpGetAlertHistory); cbn; [discriminate |].
  destruct (limit <? 0); cbn; [discriminate |].
  intros [= <-]. split; [apply firstn_le_length | split].
  - apply firstn_Forall, Forall_forall. intros s Hs.
    apply (Permutation_in _ (sort_reverse_perm timestamp _)) in Hs.
    apply filter_In in Hs. destruct Hs as [Hin Hflag].
    split; [exact Hin |]. now destruct (alert_sent s).
  - apply firstn_sorted. apply (sort_reverse_sorted timestamp).
Qed.

Lemma store_history_world limit w :
  snd (Database.get_alert_history env limit w) = w.
Proof.
  unfold Database.get_alert_history, Database.store_call, raise.
  destruct (db_raises env OpGetAlertHistory); [reflexivity |].
  now destruct (limit <? 0).
Qed.

(** The service's history is the store's answer entry by entry, and the
    empty list when the store raises. *)
Lemma service_history limit w :
  AlertService.get_alert_history env limit w =
  (inr match fst (Database.get_alert_history env limit w) with
       | inr snapshots => map history_entry snapshots
       | inl _ => []
       end, w).
Proof.
  unfold AlertService.get_alert_history, try_except, bind, ret.
  pose proof (store_history_world limit w) as Hw.
  destruct (Database.get_alert_history env limit w) as [[e | snapshots] w'];
    cbn in *; now subst.
Qed.

Lemma cap_is_min N : (if N >? 50 then 50 else N) = Z.min N 50.
Proof. destruct (Z.gtb_spec N 50); lia. Qed.

(** C9. [GET /alerts/history?limit=N] answers what [get_alert_history]
    answers for the limit min(N, 50): at most that many entries, each the
    image of a stored snapshot whose [alert_sent] is true, most recent
    first; a request for 100 is served as one for 50. *)
Theorem alert_history_endpoint_spec :
  forall (N : Z) (w : World),
    exists snapshots,
      Main.get_alert_history env N w
      = (Main.Ok200 (map history_entry snapshots), w)
      /\ AlertService.get_alert_history env (Z.min N 50) w
         = (inr (map history_entry snapshots), w)
      /\ (length (map history_entry snapshots) <= Z.to_nat (Z.min N 50))%nat
      /\ Forall (fun s => In s (checks w) /\ alert_sent s = true) snapshots
      /\ StronglySorted Spec.most_recent_first snapshots
      /\ Main.get_alert_history env 100 w = Main.get_alert_history env 50 w.
Proof.
  intros N w. unfold Main.get_alert_history.
  rewrite cap_is_min, !service_history.
  pose proof (store_history_answer (Z.min N 50) w) as Hans.
  destruct (fst (Database.get_alert_history env (Z.min N 50) w))
    as [e | snapshots].
  - exists []. cbn. repeat split; try constructor. lia.
  - destruct (Hans snapshots eq_refl) as (Hlen & Hall & Hsorted).
    exists snapshots. rewrite length_map. now repeat split.
Qed.

(** C10. [get_status_summary] and [get_alert_history] always return and
    leave the world as it is; when a store read raises, the summary is
    the error record carrying the message of the exception, and the
    history is the empty list. *)
Theorem read_operations_never_raise :
  forall (limit : Z) (w : World),
    (exists s, AlertService.get_status_summary env w = (inr s, w))
    /\ (exists h, AlertService.get_alert_history env limit w = (inr h, w))
    /\ (forall e,
          fst (Database.get_latest_snapshot env w) = inl e ->
          AlertService.get_status_summary env w
          = (inr (SummaryError (str_exn e)), w))
    /\ (forall latest e,
          fst (Database.get_latest_snapshot env w) = inr (Some latest) ->
          fst (Database.get_snapshots_last_24h env w) = inl e ->
          AlertService.get_status_summary env w
          = (inr (SummaryError (str_exn e)), w))
    /\ (forall e,
          fst (Database.get_alert_history env limit w) = inl e ->
          AlertService.get_alert_history env limit w = (inr [], w))
    /\ summary_status (SummaryError "") = "error".
Proof.
  intros limit w.
  assert (Hsummary :
    forall s, AlertService.get_status_summary env w = s ->
      match fst (Database.get_latest_snapshot env w) with
      | inl e => s = (inr (SummaryError (str_exn e)), w)
      | inr None => s = (inr SummaryNoData, w)
      | inr (Some latest) =>
          match fst (Database.get_snapshots_last_24h env w) with
          | inl e => s = (inr (SummaryError (str_exn e)), w)
          | inr _ => exists d, s = (inr d, w)
          end
      end).
  { intros s <-.
    unfold AlertService.get_status_summary, try_except, bind, ret,
      Database.get_latest_snapshot, Database.get_snapshots_last_24h,
      Database.store_call, raise.
    destruct (db_raises env OpGetLatest); cbn; [reflexivity |].
    destruct (hd_error _); cbn; [| reflexivity].
    destruct (db_raises env OpGet24h); cbn; [reflexivity | eauto]. }
  specialize (Hsummary _ eq_refl).
  split; [| split; [| split; [| split; [| split]]]].
  - destruct (fst (Database.get_latest_snapshot env w)) as [e | [latest |]];
      [eauto | | eauto].
    destruct (fst (Database.get_snapshots_last_24h env w)); eauto.
  - rewrite service_history. eauto.
  - intros e He. now rewrite He in Hsummary.
  - intros latest e Hl He. now rewrite Hl, He in Hsummary.
  - intros e He. rewrite service_history. now rewrite He.
  - reflexivity.
Qed.

Example summary_when_store_is_down :
  AlertService.get_status_summary
    (mkEnv (fun _ => MerchantAPI.RequestTimeout)
       (fun _ => Some (GoogleCloudError "store unavailable")) (inr 202) 1000)
    Spec.empty_world
  = (inr (SummaryError "store unavailable"), Spec.empty_world).
Proof. reflexivity. Qed.

End ReadOperations.

Example history_is_most_recent_first :
  let snap t sent := mkSnapshot t "PL" "SHOPPING_ADS" no_counts 0 sent [] in
  let w := mkWorld [snap 10 true; snap 30 false; snap 20 true; snap 40 true]
             [] [] in
  fst (Main.get_alert_history (Spec.env_60 202) 2 w)
  = Main.Ok200 [history_entry (snap 40 true); history_entry (snap 20 true)].
Proof. reflexivity. Qed.

(* ================================================================== *)
(** * Further properties of the sources *)

(** ** More on the request loop *)

Section RequestLoop.

Import MerchantAPI.

Variable script : nat -> attempt_outcome.
Variable max_retries : Z.

Lemma attempt_body_sleeps attempt o :
  (count_events is_sleep (fst (attempt_body max_retries attempt o)) <= 1)%nat.
Proof.
  unfold attempt_body, try_block, handlers, raise_for_status.
  destruct o as [[] | | ? | ? ?]; cbn;
    repeat match goal with
           | |- context [if ?c then _ else _] => destruct c eqn:?; cbn
           end; lia.
Qed.

Lemma attempt_body_refreshes attempt o :
  (count_events is_refresh (fst (attempt_body max_retries attempt o)) <= 1)%nat.
Proof.
  unfold attempt_body, try_block, handlers, raise_for_status.
  destruct o as [[] | | ? | ? ?]; cbn;
    repeat match goal with
           | |- context [if ?c then _ else _] => destruct c eqn:?; cbn
           end; lia.
Qed.

(** A bound per turn gives a bound for the loop. *)
Lemma for_attempts_count p range :
  (forall attempt o,
     (count_events p (fst (attempt_body max_retries attempt o)) <= 1)%nat) ->
  (count_events p (fst (for_attempts script max_retries range))
   <= length range)%nat.
Proof.
  intros Hone.
  induction range as [| attempt rest IH]; cbn [for_attempts]; [cbn; lia |].
  pose proof (Hone attempt (script attempt)) as H1.
  destruct (attempt_body max_retries attempt (script attempt)) as [evs st].
  cbn [fst] in H1.
  destruct st; cbn [fst length]; try lia.
  destruct (for_attempts script max_retries rest) as [evs' r].
  cbn [fst] in *. rewrite count_events_app. lia.
Qed.

(** X1. Whatever the answers, [_make_request] issues at most
    [max_retries] requests, sleeps at most [max_retries] times and
    refreshes the token at most [max_retries] times; with a bound of 0
    or less it does nothing and raises the final exception at once. *)
Theorem make_request_effort_bounded :
  (count_events is_request (fst (_make_request script max_retries))
   <= Z.to_nat max_retries)%nat
  /\ (count_events is_sleep (fst (_make_request script max_retries))
      <= Z.to_nat max_retries)%nat
  /\ (count_events is_refresh (fst (_make_request script max_retries))
      <= Z.to_nat max_retries)%nat
  /\ (max_retries <= 0 ->
      _make_request script max_retries = ([], inl (exhausted max_retries))).
Proof.
  unfold _make_request.
  assert (Hlen : length (seq 0 (Z.to_nat max_retries)) = Z.to_nat max_retries)
    by apply length_seq.
  repeat split.
  - etransitivity; [apply for_attempts_count, attempt_body_requests | lia].
  - etransitivity; [apply for_attempts_count, attempt_body_sleeps | lia].
  - etransitivity; [apply for_attempts_count, attempt_body_refreshes | lia].
  - intros Hle. replace (Z.to_nat max_retries) with 0%nat by lia.
    reflexivity.
Qed.

(** Before the last attempt, a turn continues unless it meets a 200 or a
    refresh that raises. *)
Lemma attempt_body_continues i o :
  Z.of_nat i < max_retries - 1 ->
  Facts.is_200 o = false -> Facts.refresh_raises o = false ->
  snd (attempt_body max_retries i o) = Continue.
Proof.
  intros Hi H200 Hrefresh.
  assert (Hlt : (Z.of_nat i <? max_retries - 1) = true) by now apply Z.ltb_lt.
  unfold attempt_body, try_block, handlers, raise_for_status.
  destruct o as [[] | | msg | status body]; cbn in H200, Hrefresh;
    try discriminate.
  - cbn. now rewrite Hlt.
  - cbn. now rewrite Hlt.
  - cbn. now rewrite Hlt.
  - rewrite H200.
    destruct (status =? 429); [reflexivity |].
    destruct (status >=? 500); [reflexivity |].
    destruct ((200 <=? status) && (status <=? 299)); [reflexivity |].
    cbn. now rewrite Hlt.
Qed.

Lemma attempt_body_200 i body :
  attempt_body max_retries i (Response 200 body) = ([EvRequest i], Return body).
Proof. reflexivity. Qed.

Lemma for_attempts_first_200 k body : forall start,
  Z.of_nat (start + k) < max_retries ->
  script (start + k)%nat = Response 200 body ->
  (forall i, (start <= i < start + k)%nat ->
     Facts.is_200 (script i) = false /\
     Facts.refresh_raises (script i) = false) ->
  forall len, (k < len)%nat ->
  snd (for_attempts script max_retries (seq start len)) = inr body.
Proof.
  induction k as [| k IH]; intros start Hbound H200 Hbefore len Hlen;
    (destruct len as [| len]; [lia |]); cbn [seq for_attempts].
  - rewrite Nat.add_0_r in H200. rewrite H200, attempt_body_200. reflexivity.
  - destruct (Hbefore start ltac:(lia)) as [Hn200 Hnr].
    pose proof (attempt_body_continues start (script start) ltac:(lia)
                  Hn200 Hnr) as Hc.
    destruct (attempt_body max_retries start (script start)) as [evs st].
    cbn [snd] in Hc. subst st.
    specialize (IH (S start)).
    replace (S start + k)%nat with (start + S k)%nat in IH by lia.
    specialize (IH Hbound H200 (fun i Hi => Hbefore i ltac:(lia)) len
                  ltac:(lia)).
    destruct (for_attempts script max_retries (seq (S start) len)).
    exact IH.
Qed.

Lemma for_attempts_return_first body : forall len start,
  snd (for_attempts script max_retries (seq start len)) = inr body ->
  exists k, (k < len)%nat /\ script (start + k)%nat = Response 200 body /\
    forall i, (start <= i < start + k)%nat ->
      Facts.is_200 (script i) = false /\
      Facts.refresh_raises (script i) = false.
Proof.
  induction len as [| len IH]; intros start; cbn [seq for_attempts];
    [discriminate |].
  pose proof (attempt_body_return max_retries start (script start)) as Hret.
  destruct (attempt_body max_retries start (script start)) as [evs st] eqn:Hb.
  cbn [snd] in Hret.
  destruct st as [| body' | e]; cbn [snd].
  - destruct (for_attempts script max_retries (seq (S start) len))
      as [evs' r] eqn:Hrest.
    cbn [snd]. intros Hr.
    destruct (IH (S start)) as (k & Hk & H200 & Hbefore).
    { now rewrite Hrest. }
    exists (S k). split; [lia |].
    replace (start + S k)%nat with (S start + k)%nat by lia.
    split; [exact H200 |].
    intros i Hi. destruct (Nat.eq_dec i start) as [-> | Hne].
    + split.
      * destruct (Facts.is_200 (script start)) eqn:E; [| reflexivity].
        destruct (script start) as [rr | | m | s b]; try discriminate.
        cbn in E. apply Z.eqb_eq in E. subst s.
        rewrite attempt_body_200 in Hb. discriminate.
      * destruct (script start) as [[] | | m | s b]; try reflexivity.
        discriminate.
    + apply Hbefore. lia.
  - intros [= ->]. exists 0%nat. rewrite Nat.add_0_r.
    split; [lia |]. split; [now apply Hret |]. intros i Hi. lia.
  - discriminate.
Qed.

(** X2. [_make_request] returns a body exactly when some attempt within
    the bound is answered 200 with that body and no earlier attempt was
    answered 200 or met a token refresh that raises: every other failure
    before it (time-out, transport error, any non-200 status) is tried
    again. *)
Theorem make_request_returns_first_200 :
  forall body,
    snd (_make_request script max_retries) = inr body <->
    exists k,
      Z.of_nat k < max_retries
      /\ script k = Response 200 body
      /\ forall i, (i < k)%nat ->
           Facts.is_200 (script i) = false
           /\ Facts.refresh_raises (script i) = false.
Proof.
  intros body. unfold _make_request. split.
  - intros H. destruct (for_attempts_return_first body _ _ H)
      as (k & Hk & H200 & Hbefore).
    exists k. cbn [Nat.add] in *. split; [lia |]. split; [exact H200 |].
    intros i Hi. apply Hbefore. lia.
  - intros (k & Hk & H200 & Hbefore).
    apply (for_attempts_first_200 k body 0%nat); cbn [Nat.add];
      try assumption; try lia.
    intros i Hi. apply Hbefore. lia.
Qed.

End RequestLoop.

Section RequestLoopTiming.

Import MerchantAPI.

Lemma slept_app l1 l2 : slept (l1 ++ l2) = slept l1 + slept l2.
Proof.
  induction l1 as [| e l1 IH]; [reflexivity |].
  cbn [app]. unfold slept in *. cbn [fold_right]. rewrite IH.
  destruct e; lia.
Qed.

Lemma pow2_pos (i : nat) : 0 < 2 ^ Z.of_nat i.
Proof. apply Z.pow_pos_nonneg; lia. Qed.

Lemma pow2_succ (i : nat) : 2 ^ Z.of_nat (S i) = 2 * 2 ^ Z.of_nat i.
Proof. rewrite Nat2Z.inj_succ. apply Z.pow_succ_r. lia. Qed.

(** No turn sleeps longer than the rate-limit back-off of its attempt. *)
Lemma attempt_body_sleep_bound max_retries i o :
  0 <= slept (fst (attempt_body max_retries i o)) <= Facts.longest_sleep i.
Proof.
  pose proof (pow2_pos i) as Hpos. unfold Facts.longest_sleep.
  unfold attempt_body, try_block, handlers, raise_for_status.
  destruct o as [[] | | ? | ? ?];
    repeat match goal with
           | |- context [if ?c then _ else _] => destruct c eqn:?
           end; cbn -[Z.pow Z.mul Z.of_nat]; lia.
Qed.

Lemma for_attempts_sleep_bound script max_retries : forall len start,
  0 <= slept (fst (for_attempts script max_retries (seq start len)))
    <= 60 * (2 ^ Z.of_nat (start + len) - 2 ^ Z.of_nat start).
Proof.
  induction len as [| len IH]; intros start; cbn [seq for_attempts].
  - rewrite Nat.add_0_r. cbn [fst slept fold_right]. lia.
  - pose proof (attempt_body_sleep_bound max_retries start (script start))
      as H1. unfold Facts.longest_sleep in H1.
    specialize (IH (S start)).
    replace (S start + len)%nat with (start + S len)%nat in IH by lia.
    rewrite pow2_succ in IH.
    assert (Hmono : 2 ^ Z.of_nat (S start) <= 2 ^ Z.of_nat (start + S len))
      by (apply Z.pow_le_mono_r; lia).
    rewrite pow2_succ in Hmono.
    destruct (attempt_body max_retries start (script start)) as [evs st].
    cbn [fst] in H1.
    destruct st; cbn [fst]; try lia.
    destruct (for_attempts script max_retries (seq (S start) len))
      as [evs' r].
    cbn [fst] in *. rewrite slept_app. lia.
Qed.

(** X3. Whatever the answers, the sleeps of one [_make_request] add up to
    at most 60 * (2^max_retries - 1) seconds: 420 s for the default bound
    of 3. *)
Theorem make_request_sleep_bounded :
  forall script max_retries,
    0 <= slept (fst (_make_request script max_retries))
      <= 60 * (2 ^ Z.max 0 max_retries - 1)
    /\ slept (fst (get_aggregate_product_statuses script)) <= 420.
Proof.
  assert (H : forall script max_retries,
             0 <= slept (fst (_make_request script max_retries))
               <= 60 * (2 ^ Z.max 0 max_retries - 1)).
  { intros script max_retries. unfold _make_request.
    pose proof (for_attempts_sleep_bound script max_retries
                  (Z.to_nat max_retries) 0) as H.
    cbn [Nat.add Z.of_nat] in H.
    replace (Z.of_nat (Z.to_nat max_retries)) with (Z.max 0 max_retries)
      in H by lia.
    change (2 ^ 0) with 1 in H. exact H. }
  intros script max_retries. split; [apply H |].
  apply (H script default_max_retries).
Qed.

(** The loop over a range whose turns all continue, followed by more. *)
Lemma for_attempts_app script max_retries range rest :
  (forall i, In i range ->
     snd (attempt_body max_retries i (script i)) = Continue) ->
  for_attempts script max_retries (range ++ rest) =
  (flat_map (fun i => fst (attempt_body max_retries i (script i))) range
     ++ fst (for_attempts script max_retries rest),
   snd (for_attempts script max_retries rest)).
Proof.
  induction range as [| i range IH]; intros Hall; cbn [app flat_map].
  - now destruct (for_attempts script max_retries rest).
  - cbn [for_attempts].
    pose proof (Hall i (or_introl eq_refl)) as Hi.
    destruct (attempt_body max_retries i (script i)) as [evs st].
    cbn [fst snd] in *. subst st.
    rewrite (IH (fun j Hj => Hall j (or_intror Hj))).
    now rewrite app_assoc.
Qed.

(** Turns that each issue a request and sleep [c * 2^i]. *)
Lemma backoff_sum (f : nat -> list event) c : forall len start,
  (forall i, (start <= i < start + len)%nat ->
     f i = [EvRequest i; EvSleep (c * 2 ^ Z.of_nat i)]) ->
  slept (flat_map f (seq start len))
    = c * (2 ^ Z.of_nat (start + len) - 2 ^ Z.of_nat start)
  /\ count_events is_request (flat_map f (seq start len)) = len.
Proof.
  induction len as [| len IH]; intros start Hf; cbn [seq flat_map].
  - rewrite Nat.add_0_r. cbn [slept fold_right]. split; [lia | reflexivity].
  - rewrite slept_app, count_events_app, (Hf start) by lia.
    destruct (IH (S start)) as [Hs Hc]; [intros i Hi; apply Hf; lia |].
    rewrite Hs, Hc.
    replace (S start + len)%nat with (start + S len)%nat by lia.
    rewrite pow2_succ. cbn [slept fold_right].
    split; [lia | reflexivity].
Qed.

Lemma seq_last (n : nat) : seq 0 (S n) = seq 0 n ++ [n].
Proof. now rewrite seq_S. Qed.

(** X4. With a bound of at least 1 and an answer that never changes:
    a 429 or a 5xx on every attempt costs [max_retries] requests, sleeps
    after every one of them (60 or 10 times 2^max_retries - 1 seconds in
    all) and ends in the generic exception; a time-out on every attempt
    costs as many requests, does not sleep after the last one
    (5 * (2^(max_retries - 1) - 1) seconds in all) and ends in the
    time-out exception itself. *)
Theorem make_request_persistent_failure :
  forall (max_retries : Z) (body : ApiResponse),
    1 <= max_retries ->
    (forall status,
       status = 429 \/ 500 <= status ->
       let run := _make_request (fun _ => Response status body) max_retries in
       snd run = inl (exhausted max_retries)
       /\ count_events is_request (fst run) = Z.to_nat max_retries
       /\ slept (fst run)
          = (if status =? 429 then 60 else 10) * (2 ^ max_retries - 1))
    /\ (let run := _make_request (fun _ => RequestTimeout) max_retries in
        snd run = inl TimeoutException
        /\ count_events is_request (fst run) = Z.to_nat max_retries
        /\ slept (fst run) = 5 * (2 ^ (max_retries - 1) - 1)).
Proof.
  intros max_retries body Hn. split.
  - intros status Hstatus run. subst run. unfold _make_request.
    set (script := fun _ : nat => Response status body).
    set (c := if status =? 429 then 60 else 10).
    assert (Hbody : forall i,
              attempt_body max_retries i (script i)
              = ([EvRequest i; EvSleep (c * 2 ^ Z.of_nat i)], Continue)).
    { intros i. subst script c. cbv beta.
      destruct Hstatus as [-> | Hs].
      - apply backoff_rate_limited.
      - destruct (Z.eqb_spec status 429); [lia |].
        now apply backoff_server_error. }
    rewrite <- (app_nil_r (seq 0 (Z.to_nat max_retries))).
    rewrite for_attempts_app by (intros i _; now rewrite Hbody).
    cbn [for_attempts fst snd]. rewrite app_nil_r.
    destruct (backoff_sum
                (fun i => fst (attempt_body max_retries i (script i))) c
                (Z.to_nat max_retries) 0) as [Hs Hc].
    { intros i _. now rewrite Hbody. }
    split; [reflexivity | split; [exact Hc |]].
    rewrite Hs. cbn [Nat.add Z.of_nat].
    replace (Z.of_nat (Z.to_nat max_retries)) with max_retries by lia.
    change (2 ^ 0) with 1. reflexivity.
  - intros run. subst run. unfold _make_request.
    set (script := fun _ : nat => RequestTimeout).
    destruct (Z.to_nat max_retries) as [| m] eqn:Hm; [lia |].
    rewrite seq_last.
    assert (Hbody : forall i, (i < m)%nat ->
              attempt_body max_retries i (script i)
              = ([EvRequest i; EvSleep (5 * 2 ^ Z.of_nat i)], Continue)).
    { intros i Hi. apply backoff_timeout. lia. }
    rewrite for_attempts_app
      by (intros i Hi; apply in_seq in Hi; rewrite Hbody; [easy | lia]).
    cbn [for_attempts fst snd].
    change (script m) with RequestTimeout.
    rewrite (timeout_on_last_attempt max_retries m) by lia.
    cbn [fst snd].
    destruct (backoff_sum
                (fun i => fst (attempt_body max_retries i (script i))) 5
                m 0) as [Hs Hc].
    { intros i Hi. rewrite Hbody; [reflexivity | lia]. }
    split; [reflexivity |].
    rewrite count_events_app, slept_app, Hs, Hc.
    cbn [Nat.add Z.of_nat].
    replace (max_retries - 1) with (Z.of_nat m) by lia.
    change (2 ^ 0) with 1. cbn [slept fold_right].
    split; [| lia].
    change (count_events is_request [EvRequest m]) with 1%nat. lia.
Qed.

Lemma make_request_persistent_failure_witness :
  1 <= 3 /\
  (forall status,
     status = 429 \/ 500 <= status ->
     let run :=
       _make_request (fun _ => Response status Facts.no_body) 3 in
     snd run = inl (exhausted 3)
     /\ count_events is_request (fst run) = Z.to_nat 3
     /\ slept (fst run) = (if status =? 429 then 60 else 10) * (2 ^ 3 - 1))
  /\ (let run := _make_request (fun _ => RequestTimeout) 3 in
      snd run = inl TimeoutException
      /\ count_events is_request (fst run) = Z.to_nat 3
      /\ slept (fst run) = 5 * (2 ^ (3 - 1) - 1)).
Proof.
  split; [lia |].
  apply (make_request_persistent_failure 3 Facts.no_body). lia.
Defined.

(** A turn refreshes the token only on an authentication failure. *)
Lemma attempt_body_refresh_only_auth max_retries i o :
  Facts.is_auth_failure o = false ->
  count_events is_refresh (fst (attempt_body max_retries i o)) = 0%nat.
Proof.
  intros H. unfold attempt_body, try_block, handlers, raise_for_status.
  destruct o as [[] | | ? | ? ?]; cbn in H; try discriminate; cbn;
    repeat match goal with
           | |- context [if ?c then _ else _] => destruct c eqn:?; cbn
           end; reflexivity.
Qed.

Lemma for_attempts_refresh_only_auth script max_retries range :
  (forall i, In i range -> Facts.is_auth_failure (script i) = false) ->
  count_events is_refresh (fst (for_attempts script max_retries range))
  = 0%nat.
Proof.
  induction range as [| i range IH]; intros Hall; cbn [for_attempts];
    [reflexivity |].
  pose proof (attempt_body_refresh_only_auth max_retries i (script i)
                (Hall i (or_introl eq_refl))) as H1.
  destruct (attempt_body max_retries i (script i)) as [evs st].
  cbn [fst] in H1.
  destruct st; cbn [fst]; try exact H1.
  specialize (IH (fun j Hj => Hall j (or_intror Hj))).
  destruct (for_attempts script max_retries range) as [evs' r].
  cbn [fst] in *. rewrite count_events_app. lia.
Qed.

(** X5. The token is refreshed only when [get_access_token] raises
    [GoogleAuthError]: when no attempt within the bound meets that, the
    loop never calls [refresh_token], whatever the statuses answered
    (a 401 or a 403 included). *)
Theorem make_request_refresh_only_on_auth_error :
  forall script max_retries,
    (forall i, Z.of_nat i < max_retries ->
       Facts.is_auth_failure (script i) = false) ->
    count_events is_refresh (fst (_make_request script max_retries)) = 0%nat.
Proof.
  intros script max_retries H. unfold _make_request.
  apply for_attempts_refresh_only_auth.
  intros i Hi. apply in_seq in Hi. apply H. lia.
Qed.

Lemma make_request_refresh_only_on_auth_error_witness :
  (forall i, Z.of_nat i < 3 ->
     Facts.is_auth_failure (Response 401 Facts.no_body) = false)
  /\ count_events is_refresh
       (fst (_make_request (fun _ => Response 401 Facts.no_body) 3)) = 0%nat.
Proof.
  split; [reflexivity |].
  apply (make_request_refresh_only_on_auth_error
           (fun _ => Response 401 Facts.no_body) 3).
  reflexivity.
Defined.

End RequestLoopTiming.

(** ** More on parsing *)

Section ParsingMore.

Import MerchantAPI.

Lemma parse_report items :
  parse_product_status_counts (Facts.report items) =
  mkCounts (Spec.total_for "approved" items) (Spec.total_for "pending" items)
    (Spec.total_for "disapproved" items) (Spec.total_for "limited" items)
    (Spec.total_for "suspended" items) (Spec.total_for "under_review" items)
    (Spec.total_for "processing" items).
Proof.
  unfold parse_product_status_counts, Facts.report. cbn [r_items Py.get].
  rewrite fold_parse_item. reflexivity.
Qed.

Lemma parse_report_app l1 l2 :
  parse_product_status_counts (Facts.report (l1 ++ l2)) =
  Facts.add_counts (parse_product_status_counts (Facts.report l1))
    (parse_product_status_counts (Facts.report l2)).
Proof.
  rewrite !parse_report, !total_for_app. reflexivity.
Qed.

Lemma add_counts_comm a b : Facts.add_counts a b = Facts.add_counts b a.
Proof. unfold Facts.add_counts. f_equal; lia. Qed.

Lemma add_counts_assoc a b c :
  Facts.add_counts a (Facts.add_counts b c)
  = Facts.add_counts (Facts.add_counts a b) c.
Proof. unfold Facts.add_counts. cbn. f_equal; lia. Qed.

Lemma parse_report_perm l l' :
  Permutation l l' ->
  parse_product_status_counts (Facts.report l)
  = parse_product_status_counts (Facts.report l').
Proof.
  induction 1 as [| x l l' _ IH | x y l | l l' l'' _ IH1 _ IH2].
  - reflexivity.
  - change (x :: l) with ([x] ++ l). change (x :: l') with ([x] ++ l').
    now rewrite !parse_report_app, IH.
  - change (y :: x :: l) with ([y] ++ [x] ++ l).
    change (x :: y :: l) with ([x] ++ [y] ++ l).
    rewrite !parse_report_app, !add_counts_assoc.
    f_equal. apply add_counts_comm.
  - now rewrite IH1.
Qed.

(** X6. The counts parsed from a report do not depend on the order of
    its items, the counts of a report split in two are the field by field
    sums of the counts of the parts, and a body without an ["items"] key
    parses to all zeros. *)
Theorem parse_counts_additive :
  (forall l1 l2,
     parse_product_status_counts (Facts.report (l1 ++ l2)) =
     Facts.add_counts (parse_product_status_counts (Facts.report l1))
       (parse_product_status_counts (Facts.report l2)))
  /\ (forall l l',
        Permutation l l' ->
        parse_product_status_counts (Facts.report l)
        = parse_product_status_counts (Facts.report l'))
  /\ parse_product_status_counts (mkResponse None) = no_counts.
Proof.
  split; [exact parse_report_app | split; [exact parse_report_perm |]].
  reflexivity.
Qed.










End ParsingMore.

(** ** More on the decision rule *)

Section DecisionMore.

(** X10. The decision depends on the totals only through
    disapproved + suspended + limited; it is monotone: once it fires it
    still fires for a larger problematic total and a larger delta, and
    under thresholds that are lower. *)
Theorem should_send_alert_monotone :
  (forall settings t t' d,
     Spec.problematic t = Spec.problematic t' ->
     Engine._should_send_alert settings t d
     = Engine._should_send_alert settings t' d)
  /\ (forall settings t t' d d',
        Spec.problematic t <= Spec.problematic t' -> d <= d' ->
        Engine._should_send_alert settings t d = true ->
        Engine._should_send_alert settings t' d' = true)
  /\ (forall settings settings' t d,
        alert_threshold_abs settings' <= alert_threshold_abs settings ->
        alert_threshold_delta settings' <= alert_threshold_delta settings ->
        Engine._should_send_alert settings t d = true ->
        Engine._should_send_alert settings' t d = true).
Proof.
  repeat split.
  - intros settings t t' d Heq.
    destruct (Engine._should_send_alert settings t' d) eqn:E.
    + apply should_send_alert_true_iff in E.
      apply should_send_alert_true_iff. lia.
    + apply not_true_is_false. intros E'.
      apply should_send_alert_true_iff in E'.
      assert (Engine._should_send_alert settings t' d = true)
        by (apply should_send_alert_true_iff; lia).
      congruence.
  - intros settings t t' d d' Ht Hd E.
    apply should_send_alert_true_iff in E.
    apply should_send_alert_true_iff. lia.
  - intros settings settings' t d Ha Hd E.
    apply should_send_alert_true_iff in E.
    apply should_send_alert_true_iff. lia.
Qed.

End DecisionMore.

(** ** More on the notifier and the check run *)

Section CheckRunMore.

Import MerchantAPI.

Variable env : Env.
Variable settings : Settings.

Lemma send_alert_email_exact w :
  EmailService.send_alert_email env settings w =
  (inr (Spec.notifier_reports env),
   mkWorld (checks w)
     (Facts.emails_after env settings true (email_alerts w))
     (trace w ++ [EvSendAlertEmail])).
Proof.
  unfold EmailService.send_alert_email, Facts.emails_after,
    Spec.notifier_reports, bind, try_except, emit,
    Database.save_email_alert, Database.store_call, raise, ret.
  destruct (sg_send env) as [e | c]; cbn; [reflexivity |].
  destruct ((c =? 200) || (c =? 201) || (c =? 202)); cbn; [| reflexivity].
  destruct (db_raises env OpSaveEmailAlert); cbn; reflexivity.
Qed.

(** X9. [send_alert_email] never raises.  It reports success exactly
    when the mail API answers 200, 201 or 202 and the record of the
    e-mail can be stored; it appends that record to [email_alerts] on
    success and leaves the collection alone otherwise, and it never
    touches the snapshots. *)
Theorem send_alert_email_spec :
  forall w,
    exists reported w',
      EmailService.send_alert_email env settings w = (inr reported, w')
      /\ (reported = true <->
          exists status_code,
            sg_send env = inr status_code
            /\ (status_code = 200 \/ status_code = 201 \/ status_code = 202)
            /\ db_raises env OpSaveEmailAlert = None)
      /\ checks w' = checks w
      /\ email_alerts w' =
         (if reported then
            email_alerts w ++ [mkEmailAlert (mail_to settings) (utcnow env)]
          else email_alerts w)
      /\ trace w' = trace w ++ [EvSendAlertEmail].
Proof.
  intros w. rewrite send_alert_email_exact. do 2 eexists.
  split; [reflexivity |]. cbn [checks email_alerts trace].
  unfold Facts.emails_after. cbn [andb].
  split; [| now destruct (Spec.notifier_reports env)].
  unfold Spec.notifier_reports.
  destruct (sg_send env) as [e | c].
  - split; [discriminate | intros (c & H & _); discriminate].
  - destruct (Z.eqb_spec c 200) as [-> | H200];
      [| destruct (Z.eqb_spec c 201) as [-> | H201];
         [| destruct (Z.eqb_spec c 202) as [-> | H202]]];
      cbn [orb andb].
    1-3: destruct (db_raises env OpSaveEmailAlert) eqn:Hdb;
      (split; [intros H; try discriminate; eexists; repeat split; eauto
              | intros (c & [= <-] & _ & Hnone); congruence]).
    split; [discriminate |].
    intros (c' & [= <-] & Hc & _). lia.
Qed.

(** What [run_check] does once the fetch and the read of the latest
    snapshot have answered. *)
Lemma run_check_after_fetch w evs api_response previous :
  get_aggregate_product_statuses (http_script env) = (evs, inr api_response) ->
  fst (Database.get_latest_snapshot env w) = inr previous ->
  let current_totals := parse_product_status_counts api_response in
  let top := get_top_issue_codes api_response 5 in
  let delta := Spec.delta_against current_totals previous 0 in
  let decision :=
    Engine._should_send_alert settings current_totals delta in
  let sent := decision && Spec.notifier_reports env in
  let saved :=
    mkSnapshot (utcnow env) (alert_country settings)
      (alert_reporting_context settings) current_totals delta sent top in
  AlertService.run_check env settings w =
  match db_raises env OpSaveSnapshot with
  | Some e =>
      (inl e,
       mkWorld (checks w)
         (Facts.emails_after env settings decision (email_alerts w))
         (trace w ++ evs ++ if decision then [EvSendAlertEmail] else []))
  | None =>
      (inr (mkCheckResult (utcnow env) (alert_country settings)
              (alert_reporting_context settings) current_totals delta sent
              top),
       mkWorld (checks w ++ [saved])
         (Facts.emails_after env settings decision (email_alerts w))
         (trace w ++ evs ++ if decision then [EvSendAlertEmail] else []))
  end.
Proof.
  intros Hfetch Hlatest current_totals top delta decision sent saved.
  unfold AlertService.run_check, try_except, bind, lift_log.
  rewrite Hfetch. cbn [fst snd].
  set (w1 := mkWorld (checks w) (email_alerts w) (trace w ++ evs)).
  assert (Hl1 : Database.get_latest_snapshot env w1 = (inr previous, w1)).
  { revert Hlatest.
    unfold Database.get_latest_snapshot, Database.store_call, raise.
    destruct (db_raises env OpGetLatest); cbn; [discriminate |].
    now intros [= <-]. }
  rewrite Hl1.
  fold current_totals. fold top.
  change (match previous with
          | Some previous0 =>
              disapproved current_totals - disapproved (totals previous0)
          | None => 0
          end) with delta.
  change (AlertService._should_send_alert settings current_totals delta)
    with decision.
  unfold Database.save_snapshot, Database.store_call.
  subst sent saved. destruct decision; cbn [andb].
  - rewrite send_alert_email_exact. subst w1. cbn [checks email_alerts trace].
    unfold Facts.emails_after. cbn [andb].
    destruct (Spec.notifier_reports env); cbn [negb];
      destruct (db_raises env OpSaveSnapshot); unfold ret, raise; cbn;
      now rewrite <- app_assoc.
  - unfold Facts.emails_after. cbn [andb].
    destruct (db_raises env OpSaveSnapshot); unfold ret, raise; cbn;
      now rewrite app_nil_r.
Qed.

(** When the read of the latest snapshot raises, so does the run. *)
Lemma run_check_latest_raises w evs api_response e :
  get_aggregate_product_statuses (http_script env) = (evs, inr api_response) ->
  fst (Database.get_latest_snapshot env w) = inl e ->
  AlertService.run_check env settings w
  = (inl e, mkWorld (checks w) (email_alerts w) (trace w ++ evs)).
Proof.
  intros Hfetch Hlatest.
  unfold AlertService.run_check, try_except, bind, lift_log.
  rewrite Hfetch. cbn [fst snd]. revert Hlatest.
  unfold Database.get_latest_snapshot, Database.store_call, raise.
  destruct (db_raises env OpGetLatest); cbn; [| discriminate].
  now intros [= ->].
Qed.

(** The four ways a run can go. *)
Lemma run_check_cases w :
  let run := AlertService.run_check env settings w in
  (exists evs e,
     run = (inl e, mkWorld (checks w) (email_alerts w) (trace w ++ evs))
     /\ count_events is_notify evs = 0%nat)
  \/ (exists evs notified e,
        run = (inl e,
               mkWorld (checks w)
                 (Facts.emails_after env settings notified (email_alerts w))
                 (trace w ++ evs))
        /\ db_raises env OpSaveSnapshot = Some e
        /\ count_events is_notify evs = (if notified then 1 else 0)%nat)
  \/ (exists evs notified result saved,
        run = (inr result,
               mkWorld (checks w ++ [saved])
                 (Facts.emails_after env settings notified (email_alerts w))
                 (trace w ++ evs))
        /\ count_events is_notify evs = (if notified then 1 else 0)%nat
        /\ cr_alert_sent result = notified && Spec.notifier_reports env
        /\ saved = mkSnapshot (checked_at result) (cr_country result)
                     (cr_reporting_context result) (cr_totals result)
                     (cr_delta_disapproved result) (cr_alert_sent result)
                     (cr_top_issues result)).
Proof.
  intros run. subst run.
  pose proof (fetch_no_notify (http_script env)) as Hnn.
  destruct (get_aggregate_product_statuses (http_script env))
    as [evs [e | api_response]] eqn:Hfetch; cbn [fst] in Hnn.
  - left. exists evs, e. split; [| exact Hnn].
    now apply run_check_fetch_raises.
  - destruct (fst (Database.get_latest_snapshot env w))
      as [e | previous] eqn:Hlatest.
    + left. exists evs, e. split; [| exact Hnn].
      now apply (run_check_latest_raises w evs api_response).
    + rewrite (run_check_after_fetch w evs api_response previous
                 Hfetch Hlatest).
      set (decision := Engine._should_send_alert _ _ _).
      assert (Hcount :
        count_events is_notify
          (evs ++ if decision then [EvSendAlertEmail] else [])
        = (if decision then 1 else 0)%nat).
      { rewrite count_events_app, Hnn. now destruct decision. }
      right. destruct (db_raises env OpSaveSnapshot) as [e |] eqn:Hsave.
      * left. exists (evs ++ if decision then [EvSendAlertEmail] else []),
          decision, e. repeat split; assumption.
      * right. do 4 eexists. split; [reflexivity |].
        split; [exact Hcount |]. split; reflexivity.
Qed.

End CheckRunMore.

Section CheckRunEffects.

Import MerchantAPI.

Lemma emails_after_grow env settings notified emails :
  Facts.emails_after env settings notified emails = emails
  \/ exists record,
       Facts.emails_after env settings notified emails = emails ++ [record].
Proof.
  unfold Facts.emails_after.
  destruct (notified && Spec.notifier_reports env); eauto.
Qed.

Lemma run_check_checks_grow env settings w :
  checks (snd (AlertService.run_check env settings w)) = checks w
  \/ exists saved,
       checks (snd (AlertService.run_check env settings w))
       = checks w ++ [saved].
Proof.
  destruct (run_check_cases env settings w)
    as [(evs & e & -> & _)
       | [(evs & notified & e & -> & _)
         | (evs & notified & result & saved & -> & _)]];
    cbn [snd checks]; eauto.
Qed.

(** X11. A run of [run_check] only ever appends: whatever the
    collaborators answer, the snapshots and the e-mail records already
    stored are kept as they are, in order, at most one snapshot and at
    most one e-mail record are added, and the notifier is called at most
    once. *)
Theorem run_check_append_only :
  forall env settings w,
    let w' := snd (AlertService.run_check env settings w) in
    (checks w' = checks w \/ exists saved, checks w' = checks w ++ [saved])
    /\ (email_alerts w' = email_alerts w
        \/ exists record, email_alerts w' = email_alerts w ++ [record])
    /\ exists evs,
         trace w' = trace w ++ evs
         /\ (count_events is_notify evs <= 1)%nat.
Proof.
  intros env settings w w'. subst w'.
  destruct (run_check_cases env settings w)
    as [(evs & e & -> & Hn)
       | [(evs & notified & e & -> & _ & Hn)
         | (evs & notified & result & saved & -> & Hn & _)]];
    cbn [snd checks email_alerts trace].
  - split; [now left | split; [now left |]].
    exists evs. split; [reflexivity | lia].
  - split; [now left | split; [apply emails_after_grow |]].
    exists evs. split; [reflexivity |]. destruct notified; lia.
  - split; [right; eauto | split; [apply emails_after_grow |]].
    exists evs. split; [reflexivity |]. destruct notified; lia.
Qed.

Lemma top_5_length api_response :
  (length (get_top_issue_codes api_response 5) <= 5)%nat.
Proof.
  unfold get_top_issue_codes. rewrite slice_to_firstn by lia.
  apply firstn_le_length.
Qed.

(** X12. When [run_check] returns, exactly one snapshot has been
    appended and the returned record mirrors it field by field: the
    time of the check, the configured country and reporting context, the
    totals, the delta, the alert flag and at most 5 top issues.  The
    e-mail record of the alert has been stored exactly when the flag is
    true. *)
Theorem run_check_result_mirrors_snapshot :
  forall env settings w result w',
    AlertService.run_check env settings w = (inr result, w') ->
    checks w' =
      checks w ++
      [mkSnapshot (checked_at result) (cr_country result)
         (cr_reporting_context result) (cr_totals result)
         (cr_delta_disapproved result) (cr_alert_sent result)
         (cr_top_issues result)]
    /\ checked_at result = utcnow env
    /\ cr_country result = alert_country settings
    /\ cr_reporting_context result = alert_reporting_context settings
    /\ (length (cr_top_issues result) <= 5)%nat
    /\ email_alerts w' =
       (if cr_alert_sent result then
          email_alerts w ++ [mkEmailAlert (mail_to settings) (utcnow env)]
        else email_alerts w).
Proof.
  intros env settings w result w' Hrun.
  destruct (get_aggregate_product_statuses (http_script env))
    as [evs [e | api_response]] eqn:Hfetch.
  - rewrite (run_check_fetch_raises env settings w evs e Hfetch) in Hrun.
    discriminate.
  - destruct (fst (Database.get_latest_snapshot env w))
      as [e | previous] eqn:Hlatest.
    + rewrite (run_check_latest_raises env settings w evs api_response e
                 Hfetch Hlatest) in Hrun. discriminate.
    + rewrite (run_check_after_fetch env settings w evs api_response
                 previous Hfetch Hlatest) in Hrun.
      destruct (db_raises env OpSaveSnapshot); [discriminate |].
      injection Hrun as <- <-.
      cbn [checks email_alerts checked_at cr_country cr_reporting_context
             cr_totals cr_delta_disapproved cr_alert_sent cr_top_issues].
      do 4 (split; [reflexivity |]).
      split; [apply top_5_length |].
      unfold Facts.emails_after.
      now destruct (Engine._should_send_alert _ _ _ && _).
Qed.

Lemma run_check_result_mirrors_snapshot_witness :
  exists result w',
    AlertService.run_check (Spec.env_60 202) Spec.settings_50
      Spec.empty_world = (inr result, w')
    /\ checks w' =
         checks Spec.empty_world ++
         [mkSnapshot (checked_at result) (cr_country result)
            (cr_reporting_context result) (cr_totals result)
            (cr_delta_disapproved result) (cr_alert_sent result)
            (cr_top_issues result)]
    /\ checked_at result = utcnow (Spec.env_60 202)
    /\ cr_country result = alert_country Spec.settings_50
    /\ cr_reporting_context result = alert_reporting_context Spec.settings_50
    /\ (length (cr_top_issues result) <= 5)%nat
    /\ email_alerts w' =
       (if cr_alert_sent result then
          email_alerts Spec.empty_world
          ++ [mkEmailAlert (mail_to Spec.settings_50)
                (utcnow (Spec.env_60 202))]
        else email_alerts Spec.empty_world).
Proof.
  do 2 eexists. split; [reflexivity |].
  apply (run_check_result_mirrors_snapshot (Spec.env_60 202)
           Spec.settings_50 Spec.empty_world).
  reflexivity.
Defined.

(** X13. When the fetch and the read of the latest snapshot answer, the
    rule says true, and the store then refuses to save the snapshot,
    [run_check] raises the store's exception and no snapshot is added,
    although the notifier has already been called once and, if it
    reported success, the record of its e-mail has been stored. *)
Theorem run_check_save_failure_after_alert :
  forall env settings w evs api_response previous e,
    get_aggregate_product_statuses (http_script env)
    = (evs, inr api_response) ->
    fst (Database.get_latest_snapshot env w) = inr previous ->
    db_raises env OpSaveSnapshot = Some e ->
    Engine._should_send_alert settings
      (parse_product_status_counts api_response)
      (match previous with
       | Some p =>
           disapproved (parse_product_status_counts api_response)
           - disapproved (totals p)
       | None => 0
       end) = true ->
    let run := AlertService.run_check env settings w in
    fst run = inl e
    /\ checks (snd run) = checks w
    /\ count_events is_notify (trace (snd run))
       = S (count_events is_notify (trace w))
    /\ email_alerts (snd run) =
       (if Spec.notifier_reports env then
          email_alerts w ++ [mkEmailAlert (mail_to settings) (utcnow env)]
        else email_alerts w).
Proof.
  intros env settings w evs api_response previous e Hfetch Hlatest Hsave
    Hrule run. subst run.
  rewrite (run_check_after_fetch env settings w evs api_response previous
             Hfetch Hlatest), Hsave.
  unfold Spec.delta_against. rewrite Hrule.
  cbn [fst snd checks email_alerts trace].
  repeat split.
  rewrite !count_events_app.
  pose proof (fetch_no_notify (http_script env)) as Hn.
  rewrite Hfetch in Hn. cbn [fst] in Hn. rewrite Hn. cbn. lia.
Qed.

Lemma run_check_save_failure_after_alert_witness :
  let run :=
    AlertService.run_check Facts.env_60_no_save Spec.settings_50
      Spec.empty_world in
  fst run = inl (GoogleCloudError "store unavailable")
  /\ checks (snd run) = checks Spec.empty_world
  /\ count_events is_notify (trace (snd run))
     = S (count_events is_notify (trace Spec.empty_world))
  /\ email_alerts (snd run) =
     (if Spec.notifier_reports Facts.env_60_no_save then
        email_alerts Spec.empty_world
        ++ [mkEmailAlert (mail_to Spec.settings_50)
              (utcnow Facts.env_60_no_save)]
      else email_alerts Spec.empty_world).
Proof.
  apply (run_check_save_failure_after_alert Facts.env_60_no_save
           Spec.settings_50 Spec.empty_world [EvRequest 0] Spec.report_60
           None (GoogleCloudError "store unavailable"));
    reflexivity.
Defined.

(** X14. [run_check] calls the notifier only after the fetch and the
    read of the latest snapshot have answered and the rule has said true
    for the parsed totals and the delta. *)
Theorem run_check_notifies_only_when_rule_fires :
  forall env settings w,
    count_events is_notify
      (trace (snd (AlertService.run_check env settings w)))
    <> count_events is_notify (trace w) ->
    exists evs api_response previous,
      get_aggregate_product_statuses (http_script env)
      = (evs, inr api_response)
      /\ fst (Database.get_latest_snapshot env w) = inr previous
      /\ Engine._should_send_alert settings
           (parse_product_status_counts api_response)
           (Spec.delta_against (parse_product_status_counts api_response)
              previous 0) = true.
Proof.
  intros env settings w Hcount.
  pose proof (fetch_no_notify (http_script env)) as Hnn.
  destruct (get_aggregate_product_statuses (http_script env))
    as [evs [e | api_response]] eqn:Hfetch; cbn [fst] in Hnn.
  - rewrite (run_check_fetch_raises env settings w evs e Hfetch) in Hcount.
    cbn [snd trace] in Hcount. rewrite count_events_app, Hnn in Hcount. lia.
  - destruct (fst (Database.get_latest_snapshot env w))
      as [e | previous] eqn:Hlatest.
    + rewrite (run_check_latest_raises env settings w evs api_response e
                 Hfetch Hlatest) in Hcount.
      cbn [snd trace] in Hcount. rewrite count_events_app, Hnn in Hcount.
      lia.
    + exists evs, api_response, previous. repeat split.
      rewrite (run_check_after_fetch env settings w evs api_response
                 previous Hfetch Hlatest) in Hcount.
      destruct (Engine._should_send_alert _ _ _); [reflexivity |].
      exfalso. apply Hcount.
      destruct (db_raises env OpSaveSnapshot); cbn [snd trace];
        rewrite !count_events_app, Hnn; cbn; lia.
Qed.

Lemma run_check_notifies_only_when_rule_fires_witness :
  exists evs api_response previous,
    get_aggregate_product_statuses (http_script (Spec.env_60 202))
    = (evs, inr api_response)
    /\ fst (Database.get_latest_snapshot (Spec.env_60 202) Spec.empty_world)
       = inr previous
    /\ Engine._should_send_alert Spec.settings_50
         (parse_product_status_counts api_response)
         (Spec.delta_against (parse_product_status_counts api_response)
            previous 0) = true.
Proof.
  apply (run_check_notifies_only_when_rule_fires (Spec.env_60 202)
           Spec.settings_50 Spec.empty_world).
  vm_compute. discriminate.
Defined.

End CheckRunEffects.

(** ** The stores *)

Section Stores.

Lemma sorted_impl {A} (R R' : A -> A -> Prop) l :
  (forall a b, R a b -> R' a b) ->
  StronglySorted R l -> StronglySorted R' l.
Proof.
  intros Himpl. induction 1 as [| x xs Hs IH Hall]; constructor;
    [exact IH |].
  eapply Forall_impl; [| exact Hall]. intros b. apply Himpl.
Qed.

Lemma sorted_filter {A} (R : A -> A -> Prop) p l :
  StronglySorted R l -> StronglySorted R (filter p l).
Proof.
  induction 1 as [| x xs Hs IH Hall]; cbn; [constructor |].
  destruct (p x); [| exact IH].
  constructor; [exact IH |].
  apply Forall_forall. intros y Hy. apply filter_In in Hy.
  rewrite Forall_forall in Hall. now apply Hall.
Qed.

(** The head of a descending stable sort is an element of largest key,
    and there is one unless the list is empty. *)
Lemma hd_sort_reverse {A} (key : A -> Z) l :
  match hd_error (Py.sort_reverse key l) with
  | None => l = []
  | Some d => In d l /\ forall d', In d' l -> key d' <= key d
  end.
Proof.
  pose proof (sort_reverse_perm key l) as Hperm.
  pose proof (sort_reverse_sorted key l) as Hsorted.
  destruct (Py.sort_reverse key l) as [| d ds]; cbn [hd_error].
  - now apply Permutation_nil.
  - split; [apply (Permutation_in _ Hperm); now left |].
    intros d' Hd'. apply (Permutation_in _ (Permutation_sym Hperm)) in Hd'.
    inversion Hsorted as [| ? ? _ Hall]; subst.
    destruct Hd' as [<- | Hd']; [lia |].
    rewrite Forall_forall in Hall. specialize (Hall d' Hd').
    unfold Spec.key_desc in Hall. lia.
Qed.

(** Sorting a list of strictly increasing keys in descending order
    reverses it; sorting it in ascending order leaves it alone. *)
Lemma insert_desc_smallest {A} (key : A -> Z) x l :
  Forall (fun y => key x < key y) l -> Py.insert_desc key x l = l ++ [x].
Proof.
  induction 1 as [| y ys Hy _ IH]; cbn; [reflexivity |].
  destruct (Z.ltb_spec (key x) (key y)); [now rewrite IH | lia].
Qed.

Lemma sort_reverse_increasing {A} (key : A -> Z) l :
  StronglySorted (fun a b => key a < key b) l ->
  Py.sort_reverse key l = rev l.
Proof.
  induction 1 as [| x xs Hs IH Hall]; cbn; [reflexivity |].
  rewrite IH. apply insert_desc_smallest.
  apply Forall_forall. intros y Hy. apply in_rev in Hy.
  rewrite Forall_forall in Hall. now apply Hall.
Qed.

Lemma sort_ascending_increasing {A} (key : A -> Z) l :
  StronglySorted (fun a b => key a < key b) l ->
  Py.sort_reverse (fun d => - key d) l = l.
Proof.
  induction 1 as [| x xs Hs IH Hall]; cbn; [reflexivity |].
  rewrite IH. destruct xs as [| y ys]; [reflexivity |].
  cbn. inversion Hall as [| ? ? Hxy _]; subst.
  destruct (Z.ltb_spec (- key x) (- key y)); [lia | reflexivity].
Qed.

(** X15. The Firestore store, when it answers: [get_latest_snapshot]
    gives nothing exactly when no snapshot is stored, and otherwise a
    stored snapshot that no other is more recent than; after
    [save_snapshot] of a snapshot more recent than all those stored, it
    gives that snapshot back. *)
Theorem firestore_latest_snapshot :
  forall env w,
    db_raises env OpGetLatest = None ->
    (fst (Database.get_latest_snapshot env w) = inr None <-> checks w = [])
    /\ (forall d,
          fst (Database.get_latest_snapshot env w) = inr (Some d) ->
          In d (checks w)
          /\ forall d', In d' (checks w) -> timestamp d' <= timestamp d)
    /\ (forall snapshot,
          db_raises env OpSaveSnapshot = None ->
          (forall d, In d (checks w) -> timestamp d < timestamp snapshot) ->
          fst (Database.get_latest_snapshot env
                 (snd (Database.save_snapshot env snapshot w)))
          = inr (Some snapshot)).
Proof.
  intros env w Hread.
  assert (Hlatest : forall w0,
            fst (Database.get_latest_snapshot env w0)
            = inr (hd_error (Py.sort_reverse timestamp (checks w0)))).
  { intros w0. unfold Database.get_latest_snapshot, Database.store_call,
      Database.order_by_desc. now rewrite Hread. }
  rewrite Hlatest.
  pose proof (hd_sort_reverse timestamp (checks w)) as Hhd.
  split; [| split].
  - destruct (hd_error (Py.sort_reverse timestamp (checks w))) as [d |].
    + split; [discriminate |]. intros Hnil. rewrite Hnil in Hhd.
      now destruct Hhd.
    + now split.
  - intros d [= Hd]. now rewrite Hd in Hhd.
  - intros snapshot Hsave Hnewer.
    unfold Database.save_snapshot, Database.store_call. rewrite Hsave.
    cbn [snd]. rewrite Hlatest. cbn [checks].
    pose proof (hd_sort_reverse timestamp (checks w ++ [snapshot])) as Hhd'.
    destruct (hd_error (Py.sort_reverse timestamp (checks w ++ [snapshot])))
      as [d |].
    + destruct Hhd' as [Hin Hmax]. apply in_app_or in Hin.
      destruct Hin as [Hin | [<- | []]]; [| reflexivity].
      specialize (Hnewer d Hin).
      assert (Hs : In snapshot (checks w ++ [snapshot]))
        by (apply in_or_app; right; now left).
      specialize (Hmax snapshot Hs). lia.
    + now destruct (checks w).
Qed.

Lemma firestore_latest_snapshot_witness :
  (fst (Database.get_latest_snapshot (Spec.env_60 202) Facts.three_checks)
   = inr None <-> checks Facts.three_checks = [])
  /\ (forall d,
        fst (Database.get_latest_snapshot (Spec.env_60 202)
               Facts.three_checks) = inr (Some d) ->
        In d (checks Facts.three_checks)
        /\ forall d', In d' (checks Facts.three_checks) ->
                      timestamp d' <= timestamp d)
  /\ (forall snapshot,
        db_raises (Spec.env_60 202) OpSaveSnapshot = None ->
        (forall d, In d (checks Facts.three_checks) ->
                   timestamp d < timestamp snapshot) ->
        fst (Database.get_latest_snapshot (Spec.env_60 202)
               (snd (Database.save_snapshot (Spec.env_60 202) snapshot
                       Facts.three_checks)))
        = inr (Some snapshot)).
Proof.
  apply (firestore_latest_snapshot (Spec.env_60 202) Facts.three_checks).
  reflexivity.
Defined.

(** X16. The Firestore store, when it answers: [get_snapshots_last_24h]
    gives exactly the stored snapshots whose timestamp is at or after
    the call time minus 24 hours (later timestamps included), oldest
    first, and the mock store gives the same snapshots for the same
    content and call time. *)
Theorem firestore_last_24h :
  forall env w,
    db_raises env OpGet24h = None ->
    exists window,
      Database.get_snapshots_last_24h env w = (inr window, w)
      /\ (forall d,
            In d window <->
            In d (checks w) /\ Facts.cutoff (utcnow env) <= timestamp d)
      /\ StronglySorted Facts.oldest_first window
      /\ Permutation window
           (DatabaseMock.get_snapshots_last_24h (utcnow env) (checks w)).
Proof.
  intros env w Hread.
  unfold Database.get_snapshots_last_24h, Database.store_call,
    Database.order_by_asc, DatabaseMock.get_snapshots_last_24h.
  rewrite Hread. eexists. split; [reflexivity |].
  set (inside := filter _ (checks w)).
  pose proof (sort_reverse_perm (fun d => - timestamp d) inside) as Hperm.
  split; [| split; [| exact Hperm]].
  - intros d. split.
    + intros Hd. apply (Permutation_in _ Hperm) in Hd.
      apply filter_In in Hd. destruct Hd as [Hin Hts].
      split; [exact Hin |]. unfold Facts.cutoff.
      apply Z.geb_le in Hts. lia.
    + intros [Hin Hts].
      apply (Permutation_in _ (Permutation_sym Hperm)).
      apply filter_In. split; [exact Hin |].
      apply Z.geb_le. unfold Facts.cutoff in Hts. lia.
  - eapply sorted_impl;
      [| apply (sort_reverse_sorted (fun d => - timestamp d))].
    unfold Spec.key_desc, Facts.oldest_first. intros a b. lia.
Qed.

Lemma firestore_last_24h_witness :
  exists window,
    Database.get_snapshots_last_24h (Spec.env_60 202) Facts.three_checks
    = (inr window, Facts.three_checks)
    /\ (forall d,
          In d window <->
          In d (checks Facts.three_checks)
          /\ Facts.cutoff (utcnow (Spec.env_60 202)) <= timestamp d)
    /\ StronglySorted Facts.oldest_first window
    /\ Permutation window
         (DatabaseMock.get_snapshots_last_24h (utcnow (Spec.env_60 202))
            (checks Facts.three_checks)).
Proof.
  apply (firestore_last_24h (Spec.env_60 202) Facts.three_checks).
  reflexivity.
Defined.

End Stores.

(** ** Status summary and history over the two stores *)

Section SummaryAndHistory.

Lemma filter_none {A} (p : A -> bool) l :
  (forall x, In x l -> p x = false) -> filter p l = [].
Proof.
  induction l as [| x xs IH]; intros H; cbn; [reflexivity |].
  rewrite (H x (or_introl eq_refl)). apply IH.
  intros y Hy. apply H. now right.
Qed.

(** X17. When the store answers, [get_status_summary] reports "no data"
    for an empty store and otherwise describes a stored snapshot that no
    other is more recent than: status "alert" when its alert flag is set
    and "healthy" when not, with the trend and the number of the
    snapshots of the last 24 hours; when every stored snapshot is older
    than that, it still describes the latest one, with a count of 0 and
    the trend "insufficient data". *)
Theorem status_summary_of_store :
  forall env w,
    db_raises env OpGetLatest = None ->
    db_raises env OpGet24h = None ->
    (checks w = [] ->
     AlertService.get_status_summary env w = (inr SummaryNoData, w))
    /\ (checks w <> [] ->
        exists latest window,
          In latest (checks w)
          /\ (forall d, In d (checks w) -> timestamp d <= timestamp latest)
          /\ fst (Database.get_snapshots_last_24h env w) = inr window
          /\ AlertService.get_status_summary env w =
             (inr (SummaryData
                     (if alert_sent latest then "alert" else "healthy")
                     (timestamp latest) (country latest)
                     (reporting_context latest) (totals latest)
                     (delta_disapproved latest) (alert_sent latest)
                     (Engine._calculate_trend window) (length window)),
              w)
          /\ ((forall d, In d (checks w) ->
                 timestamp d < Facts.cutoff (utcnow env)) ->
              window = []
              /\ Engine._calculate_trend window
                 = Engine.mkTrend Engine.insufficient_data 0 None)).
Proof.
  intros env w Hlatest H24.
  pose proof (hd_sort_reverse timestamp (checks w)) as Hhd.
  unfold AlertService.get_status_summary, try_except, bind, ret,
    Database.get_latest_snapshot, Database.get_snapshots_last_24h,
    Database.store_call, Database.order_by_desc, Database.order_by_asc,
    AlertService._calculate_trend.
  rewrite Hlatest, H24. cbn [fst snd].
  destruct (hd_error (Py.sort_reverse timestamp (checks w))) as [latest |].
  - split; [intros Hnil; rewrite Hnil in Hhd; now destruct Hhd |].
    intros _. destruct Hhd as [Hin Hmax].
    eexists latest, _. split; [exact Hin |]. split; [exact Hmax |].
    split; [reflexivity |]. split.
    + now destruct (alert_sent latest).
    + intros Hstale.
      assert (Hnone : filter
                (fun d => timestamp d >=? utcnow env - 24 * 3600)
                (checks w) = []).
      { apply filter_none. intros d Hd.
        specialize (Hstale d Hd). unfold Facts.cutoff in Hstale.
        destruct (Z.geb_spec (timestamp d) (utcnow env - 24 * 3600));
          [lia | reflexivity]. }
      rewrite Hnone. split; reflexivity.
  - split; [reflexivity | contradiction].
Qed.

Lemma status_summary_of_store_witness :
  (checks Facts.three_checks = [] ->
   AlertService.get_status_summary (Spec.env_60 202) Facts.three_checks
   = (inr SummaryNoData, Facts.three_checks))
  /\ (checks Facts.three_checks <> [] ->
      exists latest window,
        In latest (checks Facts.three_checks)
        /\ (forall d, In d (checks Facts.three_checks) ->
                      timestamp d <= timestamp latest)
        /\ fst (Database.get_snapshots_last_24h (Spec.env_60 202)
                  Facts.three_checks) = inr window
        /\ AlertService.get_status_summary (Spec.env_60 202)
             Facts.three_checks =
           (inr (SummaryData
                   (if alert_sent latest then "alert" else "healthy")
                   (timestamp latest) (country latest)
                   (reporting_context latest) (totals latest)
                   (delta_disapproved latest) (alert_sent latest)
                   (Engine._calculate_trend window) (length window)),
            Facts.three_checks)
        /\ ((forall d, In d (checks Facts.three_checks) ->
               timestamp d < Facts.cutoff (utcnow (Spec.env_60 202))) ->
            window = []
            /\ Engine._calculate_trend window
               = Engine.mkTrend Engine.insufficient_data 0 None)).
Proof.
  apply (status_summary_of_store (Spec.env_60 202) Facts.three_checks);
    reflexivity.
Defined.

(** X18. The mock store gives back as latest the snapshot saved last,
    whatever its timestamp, numbers the saved snapshots from 1, and has
    no latest snapshot exactly when it is empty. *)
Theorem mock_store_latest_is_last_saved :
  forall snapshot snapshots,
    DatabaseMock.get_latest_snapshot
      (snd (DatabaseMock.save_snapshot snapshot snapshots)) = Some snapshot
    /\ fst (DatabaseMock.save_snapshot snapshot snapshots)
       = S (length snapshots)
    /\ (DatabaseMock.get_latest_snapshot snapshots = None
        <-> snapshots = []).
Proof.
  intros snapshot snapshots. unfold DatabaseMock.save_snapshot. cbn [fst snd].
  split; [| split; [reflexivity |]].
  - unfold DatabaseMock.get_latest_snapshot.
    destruct (snapshots ++ [snapshot]) as [| s rest] eqn:E.
    + now destruct snapshots.
    + rewrite <- E. now rewrite last_last.
  - unfold DatabaseMock.get_latest_snapshot.
    destruct snapshots; split; congruence.
Qed.

Lemma skipn_suffix {A} n (l : list A) : exists before, l = before ++ skipn n l.
Proof. exists (firstn n l). now rewrite firstn_skipn. Qed.

(** X19. The history of the development engine is read from the mock
    store with the slice [[-limit:]]: a limit of 1 or more gives the
    last min(limit, number of alerts) alert snapshots, oldest first; a
    limit of 0 gives every alert snapshot, not none; in all cases the
    entries are those of a final segment of the alert snapshots, in
    stored order. *)
Theorem dev_alert_history_slice :
  forall limit snapshots,
    let alerts := filter alert_sent snapshots in
    (1 <= limit ->
     AlertServiceDev.get_alert_history limit snapshots =
     map history_entry
       (skipn (length alerts - Z.to_nat limit) alerts)
     /\ length (AlertServiceDev.get_alert_history limit snapshots)
        = Nat.min (Z.to_nat limit) (length alerts))
    /\ AlertServiceDev.get_alert_history 0 snapshots
       = map history_entry alerts
    /\ exists before kept,
         alerts = before ++ kept
         /\ AlertServiceDev.get_alert_history limit snapshots
            = map history_entry kept.
Proof.
  intros limit snapshots alerts.
  unfold AlertServiceDev.get_alert_history, DatabaseMock.get_alert_history,
    Py.slice_from.
  fold alerts. split; [| split].
  - intros Hlimit. destruct (Z.ltb_spec (- limit) 0); [| lia].
    replace (Z.to_nat (Z.of_nat (length alerts) + - limit))
      with (length alerts - Z.to_nat limit)%nat by lia.
    split; [reflexivity |].
    rewrite length_map, length_skipn. lia.
  - reflexivity.
  - destruct (- limit <? 0).
    + destruct (skipn_suffix
                  (Z.to_nat (Z.of_nat (length alerts) + - limit)) alerts)
        as [before Hb].
      exists before. eexists. split; [exact Hb | reflexivity].
    + destruct (skipn_suffix (Z.to_nat (- limit)) alerts) as [before Hb].
      exists before. eexists. split; [exact Hb | reflexivity].
Qed.

(** X20. On a store filled in time order, and for a limit of 1 or more,
    the production history is the development history over the same
    snapshots read backwards: the same alerts, most recent first instead
    of oldest first. *)
Theorem history_prod_is_dev_reversed :
  forall env w limit,
    db_raises env OpGetAlertHistory = None ->
    1 <= limit ->
    Facts.time_ordered (checks w) ->
    AlertService.get_alert_history env limit w =
    (inr (rev (AlertServiceDev.get_alert_history limit (checks w))), w).
Proof.
  intros env w limit Hread Hlimit Hordered.
  rewrite service_history.
  unfold Database.get_alert_history, Database.store_call,
    Database.order_by_desc. rewrite Hread.
  destruct (Z.ltb_spec limit 0); [lia |]. cbn [fst].
  assert (Hsame : filter (fun d => Bool.eqb (alert_sent d) true) (checks w)
                  = filter alert_sent (checks w)).
  { apply filter_ext. intros d. now destruct (alert_sent d). }
  rewrite Hsame.
  rewrite (sort_reverse_increasing timestamp)
    by (apply sorted_filter; exact Hordered).
  rewrite firstn_rev, map_rev.
  unfold AlertServiceDev.get_alert_history, DatabaseMock.get_alert_history,
    Py.slice_from.
  destruct (Z.ltb_spec (- limit) 0); [| lia].
  now replace (Z.to_nat (Z.of_nat (length (filter alert_sent (checks w)))
                         + - limit))
    with (length (filter alert_sent (checks w)) - Z.to_nat limit)%nat by lia.
Qed.

Lemma history_prod_is_dev_reversed_witness :
  AlertService.get_alert_history (Spec.env_60 202) 1 Facts.three_checks =
  (inr (rev (AlertServiceDev.get_alert_history 1
               (checks Facts.three_checks))),
   Facts.three_checks).
Proof.
  apply (history_prod_is_dev_reversed (Spec.env_60 202) Facts.three_checks 1).
  - reflexivity.
  - lia.
  - unfold Facts.time_ordered, Facts.strictly_older. cbn.
    repeat constructor; cbn; lia.
Defined.

Lemma hd_rev_last {A} (l : list A) :
  hd_error (rev l) = match l with [] => None | s :: _ => Some (last l s) end.
Proof.
  destruct l as [| s l]; [reflexivity |].
  destruct (exists_last (l := s :: l)) as (front & z & E); [discriminate |].
  rewrite E, rev_app_distr, last_last. reflexivity.
Qed.

(** X21. On a store filled in time order whose reads answer, the
    production engine and the development engine give the same status
    summary for the same snapshots and call time. *)
Theorem summary_prod_is_dev :
  forall env w,
    db_raises env OpGetLatest = None ->
    db_raises env OpGet24h = None ->
    Facts.time_ordered (checks w) ->
    AlertService.get_status_summary env w =
    (inr (AlertServiceDev.get_status_summary (utcnow env) (checks w)), w).
Proof.
  intros env w Hlatest H24 Hordered.
  unfold AlertService.get_status_summary, try_except, bind, ret,
    Database.get_latest_snapshot, Database.get_snapshots_last_24h,
    Database.store_call, Database.order_by_desc, Database.order_by_asc,
    AlertServiceDev.get_status_summary,
    DatabaseMock.get_latest_snapshot, DatabaseMock.get_snapshots_last_24h.
  rewrite Hlatest, H24. cbn [fst snd].
  rewrite (sort_reverse_increasing timestamp) by exact Hordered.
  rewrite hd_rev_last.
  assert (Hwin : forall p,
            Py.sort_reverse (fun d => - timestamp d) (filter p (checks w))
            = filter p (checks w)).
  { intros p. apply (sort_ascending_increasing timestamp).
    apply sorted_filter. exact Hordered. }
  destruct (checks w) as [| s rest] eqn:E; [reflexivity |].
  rewrite E, Hwin. reflexivity.
Qed.

Lemma summary_prod_is_dev_witness :
  AlertService.get_status_summary (Spec.env_60 202) Facts.three_checks =
  (inr (AlertServiceDev.get_status_summary (utcnow (Spec.env_60 202))
          (checks Facts.three_checks)),
   Facts.three_checks).
Proof.
  apply (summary_prod_is_dev (Spec.env_60 202) Facts.three_checks).
  - reflexivity.
  - reflexivity.
  - unfold Facts.time_ordered, Facts.strictly_older. cbn.
    repeat constructor; cbn; lia.
Defined.

End SummaryAndHistory.

(** ** The HTTP surface and the scheduler *)

Section Drivers.

Import MerchantAPI.

Lemma status_summary_returns env w :
  exists s, AlertService.get_status_summary env w = (inr s, w).
Proof.
  unfold AlertService.get_status_summary, try_except, bind, ret,
    Database.get_latest_snapshot, Database.get_snapshots_last_24h,
    Database.store_call, raise.
  destruct (db_raises env OpGetLatest); cbn; [eauto |].
  destruct (hd_error _); cbn; [| eauto].
  destruct (db_raises env OpGet24h); cbn; eauto.
Qed.

(** X22. [POST /tasks/run] answers 200 with the result of [run_check]
    after exactly one snapshot has been appended, and 500 with the text
    of the exception when [run_check] raises, in which case no snapshot
    has been added.  [GET /status] never answers 500: a store that
    raises shows as a 200 whose status is "error". *)
Theorem http_answers :
  forall env settings w,
    match Main.run_check env settings w with
    | (Main.Ok200 result, w') =>
        AlertService.run_check env settings w = (inr result, w')
        /\ exists saved, checks w' = checks w ++ [saved]
    | (Main.HTTPException status_code detail, w') =>
        status_code = 500
        /\ checks w' = checks w
        /\ exists e,
             AlertService.run_check env settings w = (inl e, w')
             /\ detail = str_exn e
    end
    /\ (exists summary, Main.get_status env w = (Main.Ok200 summary, w))
    /\ (forall e,
          db_raises env OpGetLatest = Some e ->
          Main.get_status env w = (Main.Ok200 (SummaryError (str_exn e)), w)).
Proof.
  intros env settings w. split; [| split].
  - unfold Main.run_check.
    destruct (run_check_cases env settings w)
      as [(evs & e & -> & _)
         | [(evs & notified & e & -> & _)
           | (evs & notified & result & saved & -> & _)]].
    + cbn. repeat split. eauto.
    + cbn. repeat split. eauto.
    + cbn. split; [reflexivity | eauto].
  - unfold Main.get_status.
    destruct (status_summary_returns env w) as [s ->]. eauto.
  - intros e He. unfold Main.get_status, AlertService.get_status_summary,
      try_except, bind, ret, Database.get_latest_snapshot,
      Database.store_call, raise.
    now rewrite He.
Qed.

Example tasks_run_when_api_is_down :
  fst (Main.run_check
         (mkEnv (fun _ => Response 503 Facts.no_body) (fun _ => None)
            (inr 202) 1000)
         Spec.settings_50 Spec.empty_world)
  = Main.HTTPException 500 "Failed to make API request after 3 attempts".
Proof. reflexivity. Qed.

(** A cycle is a run whose result and exception are dropped. *)
Lemma run_check_cycle_run env settings w :
  Scheduler._run_check_cycle env settings w
  = (inr tt, snd (AlertService.run_check env settings w)).
Proof.
  unfold Scheduler._run_check_cycle, try_except, bind, ret.
  now destruct (AlertService.run_check env settings w) as [[e | r] w'].
Qed.

(** The store after a run depends on the store before it, not on the
    trace. *)
Lemma run_check_same_store env settings w1 w2 :
  Facts.same_store w1 w2 ->
  fst (AlertService.run_check env settings w1)
  = fst (AlertService.run_check env settings w2)
  /\ Facts.same_store (snd (AlertService.run_check env settings w1))
       (snd (AlertService.run_check env settings w2)).
Proof.
  intros [Hc He]. unfold Facts.same_store.
  destruct (get_aggregate_product_statuses (http_script env))
    as [evs [e | api_response]] eqn:Hfetch.
  - rewrite !(run_check_fetch_raises env settings _ evs e Hfetch).
    cbn. auto.
  - assert (Hl : fst (Database.get_latest_snapshot env w1)
                 = fst (Database.get_latest_snapshot env w2)).
    { unfold Database.get_latest_snapshot, Database.store_call, raise.
      destruct (db_raises env OpGetLatest); cbn; [reflexivity |].
      now rewrite Hc. }
    destruct (fst (Database.get_latest_snapshot env w2))
      as [e | previous] eqn:Hl2.
    + rewrite !(run_check_latest_raises env settings _ evs api_response e
                  Hfetch) by assumption.
      cbn. auto.
    + rewrite !(run_check_after_fetch env settings _ evs api_response
                  previous Hfetch) by assumption.
      destruct (db_raises env OpSaveSnapshot); cbn; rewrite Hc, He; auto.
Qed.

Lemma scheduler_loop_run minutes settings cycles : forall w,
  exists w' added,
    Scheduler._scheduler_loop minutes settings cycles w = (inr tt, w')
    /\ checks w' = checks w ++ added
    /\ (length added <= length cycles)%nat.
Proof.
  induction cycles as [| env rest IH]; intros w;
    cbn [Scheduler._scheduler_loop].
  - exists w, []. unfold ret. now rewrite app_nil_r.
  - unfold bind. rewrite run_check_cycle_run. unfold emit.
    set (w1 := mkWorld _ _ _).
    destruct (IH w1) as (w' & added & -> & Hchecks & Hlen).
    destruct (run_check_checks_grow env settings w)
      as [Hsame | [saved Hsaved]].
    + exists w', added. subst w1. cbn [checks] in Hchecks.
      rewrite Hsame in Hchecks. cbn [length]. repeat split; [assumption | lia].
    + exists w', (saved :: added). subst w1. cbn [checks] in Hchecks.
      rewrite Hsaved, <- app_assoc in Hchecks.
      cbn [length]. repeat split; [assumption | lia].
Qed.

Lemma scheduler_loop_same_store minutes settings cycles : forall w1 w2,
  Facts.same_store w1 w2 ->
  Facts.same_store
    (snd (Scheduler._scheduler_loop minutes settings cycles w1))
    (snd (Scheduler._scheduler_loop minutes settings cycles w2)).
Proof.
  induction cycles as [| env rest IH]; intros w1 w2 Hsame;
    cbn [Scheduler._scheduler_loop].
  - exact Hsame.
  - unfold bind. rewrite !run_check_cycle_run. unfold emit.
    apply IH.
    destruct (run_check_same_store env settings w1 w2 Hsame) as [_ [Hc He]].
    split; assumption.
Qed.

(** X23. The scheduler loop never raises, whatever happens in its
    cycles: a cycle whose check raises is logged and dropped, and the
    loop goes on.  Over its cycles it only appends snapshots, at most
    one per cycle, and a cycle whose fetch fails leaves the stored
    collections as if that cycle had not been there. *)
Theorem scheduler_survives_failures :
  forall minutes settings cycles w,
    (exists w' added,
       Scheduler._scheduler_loop minutes settings cycles w = (inr tt, w')
       /\ checks w' = checks w ++ added
       /\ (length added <= length cycles)%nat)
    /\ (forall env evs e,
          get_aggregate_product_statuses (http_script env) = (evs, inl e) ->
          Facts.same_store
            (snd (Scheduler._scheduler_loop minutes settings (env :: cycles)
                    w))
            (snd (Scheduler._scheduler_loop minutes settings cycles w))).
Proof.
  intros minutes settings cycles w. split; [apply scheduler_loop_run |].
  intros env evs e Hfetch. cbn [Scheduler._scheduler_loop].
  unfold bind. rewrite run_check_cycle_run. unfold emit.
  apply scheduler_loop_same_store.
  rewrite (run_check_fetch_raises env settings w evs e Hfetch).
  split; reflexivity.
Qed.

Example scheduler_two_cycles :
  let run :=
    Scheduler._scheduler_loop 30 Spec.settings_50
      [Spec.env_timeout; Spec.env_60 202] Spec.empty_world in
  fst run = inr tt
  /\ map timestamp (checks (snd run)) = [1000]
  /\ trace (snd run) =
     [ EvRequest 0; EvSleep 5; EvRequest 1; EvSleep 10; EvRequest 2;
       EvSleep 1800; EvRequest 0; EvSendAlertEmail; EvSleep 1800 ].
Proof. repeat split. Qed.

End Drivers.

(** ** Checks in a row *)

Section ChecksInARow.

Import MerchantAPI.

(** X24. The development engine: every check records the mock totals
    and, as its alert flag, the value of the rule (no notifier is
    involved); a check made right after another one records a delta of
    0, whatever was stored before, so from the second check on the flag
    is true exactly when 32 exceeds the absolute threshold or the delta
    threshold is 0 or less. *)
Theorem dev_checks_in_a_row :
  forall settings now now' snapshots,
    let first_ := AlertServiceDev.run_check settings now snapshots in
    let second := AlertServiceDev.run_check settings now' (snd first_) in
    cr_totals (fst first_) = AlertServiceDev.mock_totals
    /\ cr_alert_sent (fst first_) =
       Engine._should_send_alert settings AlertServiceDev.mock_totals
         (cr_delta_disapproved (fst first_))
    /\ cr_delta_disapproved (fst second) = 0
    /\ cr_alert_sent (fst second) =
       ((32 >? alert_threshold_abs settings)
        || (0 >=? alert_threshold_delta settings))
    /\ exists s1 s2,
         snd second = snapshots ++ [s1; s2]
         /\ alert_sent s1 = cr_alert_sent (fst first_)
         /\ alert_sent s2 = cr_alert_sent (fst second)
         /\ timestamp s1 = now /\ timestamp s2 = now'.
Proof.
  intros settings now now' snapshots first_ second.
  assert (Hrun : forall t store,
            AlertServiceDev.run_check settings t store =
            let delta :=
              match DatabaseMock.get_latest_snapshot store with
              | Some previous => 25 - disapproved (totals previous)
              | None => 5
              end in
            let sent :=
              Engine._should_send_alert settings
                AlertServiceDev.mock_totals delta in
            (mkCheckResult t (alert_country settings)
               (alert_reporting_context settings)
               AlertServiceDev.mock_totals delta sent
               AlertServiceDev.mock_issues,
             store ++
             [mkSnapshot t (alert_country settings)
                (alert_reporting_context settings)
                AlertServiceDev.mock_totals delta sent
                AlertServiceDev.mock_issues])) by reflexivity.
  assert (Hlast : forall store s,
            DatabaseMock.get_latest_snapshot (store ++ [s]) = Some s).
  { intros store s. unfold DatabaseMock.get_latest_snapshot.
    destruct (store ++ [s]) as [| x rest] eqn:E.
    - now destruct store.
    - rewrite <- E. now rewrite last_last. }
  subst second first_. rewrite (Hrun now snapshots). cbv zeta. cbn [fst snd].
  rewrite (Hrun now'). cbv zeta. rewrite Hlast.
  cbn [fst snd cr_totals cr_alert_sent cr_delta_disapproved totals
         disapproved AlertServiceDev.mock_totals].
  split; [reflexivity | split; [reflexivity |]].
  split; [reflexivity |]. split.
  - unfold Engine._should_send_alert, AlertServiceDev.mock_totals.
    cbn [disapproved suspended limited].
    change (25 - 25) with 0. change (25 + 2 + 5) with 32.
    destruct (32 >? alert_threshold_abs settings);
      destruct (0 >=? alert_threshold_delta settings); reflexivity.
  - do 2 eexists. rewrite <- app_assoc. cbn [app].
    split; [reflexivity |]. now repeat split.
Qed.

(** The newest document heads the descending sort. *)
Lemma hd_sort_reverse_newest {A} (key : A -> Z) l s :
  (forall d, In d l -> key d < key s) ->
  hd_error (Py.sort_reverse key (l ++ [s])) = Some s.
Proof.
  intros Hnewer.
  pose proof (hd_sort_reverse key (l ++ [s])) as Hhd.
  destruct (hd_error (Py.sort_reverse key (l ++ [s]))) as [d |].
  - destruct Hhd as [Hin Hmax]. apply in_app_or in Hin.
    destruct Hin as [Hin | [<- | []]]; [| reflexivity].
    specialize (Hnewer d Hin).
    assert (Hs : In s (l ++ [s])) by (apply in_or_app; right; now left).
    specialize (Hmax s Hs). lia.
  - now destruct l.
Qed.

Lemma get_latest_when_store_answers env w :
  db_raises env OpGetLatest = None ->
  Database.get_latest_snapshot env w =
  (inr (hd_error (Py.sort_reverse timestamp (checks w))), w).
Proof.
  intros H. unfold Database.get_latest_snapshot, Database.store_call,
    Database.order_by_desc. now rewrite H.
Qed.

(** X25. The production engine, with a store that answers: when a check
    is made at a time later than every stored snapshot and the next
    check fetches the same report, the second check completes with the
    same totals and a delta of 0. *)
Theorem second_check_of_same_report :
  forall env1 env2 settings w evs1 evs2 api_response,
    get_aggregate_product_statuses (http_script env1)
    = (evs1, inr api_response) ->
    get_aggregate_product_statuses (http_script env2)
    = (evs2, inr api_response) ->
    Facts.store_answers env1 ->
    Facts.store_answers env2 ->
    (forall d, In d (checks w) -> timestamp d < utcnow env1) ->
    exists r1 w1 r2 w2,
      AlertService.run_check env1 settings w = (inr r1, w1)
      /\ AlertService.run_check env2 settings w1 = (inr r2, w2)
      /\ cr_totals r2 = cr_totals r1
      /\ cr_delta_disapproved r2 = 0
      /\ cr_alert_sent r2 =
         Engine._should_send_alert settings (cr_totals r1) 0
         && Spec.notifier_reports env2.
Proof.
  intros env1 env2 settings w evs1 evs2 api_response Hf1 Hf2 Hs1 Hs2 Hnew.
  pose proof (get_latest_when_store_answers env1 w (Hs1 OpGetLatest)) as Hl1.
  rewrite (run_check_after_fetch env1 settings w evs1 api_response _ Hf1
             (f_equal fst Hl1)).
  rewrite (Hs1 OpSaveSnapshot).
  do 2 eexists.
  set (w1 := mkWorld _ _ _).
  pose proof (get_latest_when_store_answers env2 w1 (Hs2 OpGetLatest)) as Hl2.
  subst w1. cbn [checks] in Hl2.
  rewrite hd_sort_reverse_newest in Hl2 by exact Hnew.
  rewrite (run_check_after_fetch env2 settings _ evs2 api_response _ Hf2
             (f_equal fst Hl2)).
  rewrite (Hs2 OpSaveSnapshot).
  do 2 eexists. split; [reflexivity |]. split; [reflexivity |].
  cbn [cr_totals cr_delta_disapproved cr_alert_sent Spec.delta_against
         totals].
  split; [reflexivity |].
  rewrite Z.sub_diag. split; reflexivity.
Qed.

Lemma second_check_of_same_report_witness :
  exists r1 w1 r2 w2,
    AlertService.run_check (Facts.env_60_at 1000) Spec.settings_50
      Facts.three_checks = (inr r1, w1)
    /\ AlertService.run_check (Facts.env_60_at 2000) Spec.settings_50 w1
       = (inr r2, w2)
    /\ cr_totals r2 = cr_totals r1
    /\ cr_delta_disapproved r2 = 0
    /\ cr_alert_sent r2 =
       Engine._should_send_alert Spec.settings_50 (cr_totals r1) 0
       && Spec.notifier_reports (Facts.env_60_at 2000).
Proof.
  apply (second_check_of_same_report (Facts.env_60_at 1000)
           (Facts.env_60_at 2000) Spec.settings_50 Facts.three_checks
           [EvRequest 0] [EvRequest 0] Spec.report_60).
  - reflexivity.
  - reflexivity.
  - intros op. reflexivity.
  - intros op. reflexivity.
  - cbn. intros d [<- | [<- | [<- | []]]]; cbn; lia.
Defined.

End ChecksInARow.

(** ** The access token and the settings document *)

Section TokenAndSettings.

(** X26. The access token is cached for good.  With a token in the
    cache, [get_access_token] returns it and calls nothing; once a call
    has returned a token, every later call returns the same one,
    whatever has become of the credentials; a call that raises leaves
    the cache as it was.  Only [refresh_token] replaces the token, by
    the one the library's refresh has just produced, and when it raises
    the cached token stays. *)
Theorem access_token_is_cached :
  forall lib key self,
    (forall t,
       Auth._token self = Some t ->
       Auth.get_access_token lib key self = (inr (Some t), self))
    /\ (forall t self1 lib' key',
          Auth.get_access_token lib key self = (inr (Some t), self1) ->
          Auth.get_access_token lib' key' self1 = (inr (Some t), self1))
    /\ (forall e self1,
          Auth.get_access_token lib key self = (inl e, self1) ->
          Auth._token self1 = Auth._token self)
    /\ (forall r self1,
          Auth.refresh_token lib key self = (inr r, self1) ->
          Auth._token self1 = r
          /\ exists c c',
               Auth.refresh lib c = inr c'
               /\ Auth.token c' = r
               /\ Auth._credentials self1 = Some c')
    /\ (forall e self1,
          Auth.refresh_token lib key self = (inl e, self1) ->
          Auth._token self1 = Auth._token self).
Proof.
  intros lib key self.
  assert (Hcached : forall l k s t,
            Auth._token s = Some t ->
            Auth.get_access_token l k s = (inr (Some t), s)).
  { intros l k s t Ht. unfold Auth.get_access_token. now rewrite Ht. }
  assert (Hcred : forall c s1,
            Auth._get_credentials lib key self = (c, s1) ->
            Auth._token s1 = Auth._token self).
  { unfold Auth._get_credentials, Auth.create_credentials.
    intros c s1.
    destruct (Auth._credentials self) as [c0 |];
      repeat match goal with
             | |- context [if ?b then _ else _] => destruct b
             | |- context [match ?x with inl _ => _ | inr _ => _ end] =>
                 destruct x
             end; intros [= <- <-]; reflexivity. }
  split; [apply Hcached |]. split; [| split; [| split]].
  - intros t self1 lib' key' Hget. apply Hcached.
    revert Hget. unfold Auth.get_access_token.
    destruct (Auth._token self) as [t0 |] eqn:Htok.
    + now intros [= <- <-].
    + destruct (Auth._get_credentials lib key self) as [[e | c] s1];
        [discriminate |].
      destruct (negb (Auth.valid c)).
      * destruct (Auth.refresh lib c); [discriminate |].
        now intros [= <- <-].
      * now intros [= <- <-].
  - intros e self1. unfold Auth.get_access_token.
    destruct (Auth._token self) as [t0 |] eqn:Htok; [discriminate |].
    pose proof (Hcred) as Hc.
    destruct (Auth._get_credentials lib key self) as [[e0 | c] s1].
    + intros [= <- <-]. now rewrite (Hc _ _ eq_refl).
    + destruct (negb (Auth.valid c)); [| discriminate].
      destruct (Auth.refresh lib c); [| discriminate].
      intros [= <- <-]. now rewrite (Hc _ _ eq_refl).
  - intros r self1. unfold Auth.refresh_token.
    destruct (Auth._get_credentials lib key self) as [[e0 | c] s1];
      [discriminate |].
    destruct (Auth.refresh lib c) as [e1 | c'] eqn:Hr; [discriminate |].
    intros [= <- <-]. split; [reflexivity |]. exists c, c'. now repeat split.
  - intros e self1. unfold Auth.refresh_token.
    pose proof (Hcred) as Hc.
    destruct (Auth._get_credentials lib key self) as [[e0 | c] s1].
    + intros [= <- <-]. exact (Hc _ _ eq_refl).
    + destruct (Auth.refresh lib c); [| discriminate].
      intros [= <- <-]. exact (Hc _ _ eq_refl).
Qed.

(** A library whose credentials work once and are then gone. *)
Example token_outlives_credentials :
  let working :=
    Auth.mkLibrary (inl GoogleAuthError)
      (inr (Auth.mkCredentials false false None None))
      (fun c => inr (Auth.mkCredentials true false None (Some "token-1"))) in
  let broken :=
    Auth.mkLibrary (inl GoogleAuthError) (inl GoogleAuthError)
      (fun _ => inl GoogleAuthError) in
  let first_ := Auth.get_access_token working None Auth.new in
  fst first_ = inr (Some "token-1")
  /\ fst (Auth.get_access_token broken None (snd first_))
     = inr (Some "token-1")
  /\ fst (Auth.refresh_token broken None (snd first_)) = inl GoogleAuthError.
Proof. repeat split. Qed.

Lemma dict_get_set {V} (d : Py.dict V) k v k' :
  Py.dict_get (Py.dict_set d k v) k' =
  if (k =? k')%string then Some v else Py.dict_get d k'.
Proof.
  induction d as [| [k0 v0] rest IH]; cbn.
  - reflexivity.
  - destruct (String.eqb_spec k0 k) as [-> | Hne]; cbn.
    + now destruct (k =? k')%string.
    + rewrite IH. destruct (String.eqb_spec k0 k') as [-> | Hne'].
      * destruct (String.eqb_spec k k'); [congruence | reflexivity].
      * reflexivity.
Qed.

Lemma dict_get_app {V} (d1 d2 : Py.dict V) k :
  Py.dict_get (d1 ++ d2) k =
  match Py.dict_get d1 k with
  | Some v => Some v
  | None => Py.dict_get d2 k
  end.
Proof.
  induction d1 as [| [k0 v0] rest IH]; cbn; [reflexivity |].
  now destruct (k0 =? k)%string.
Qed.

(** After [d.update(other)], a key has the value [other] gave it last,
    and otherwise the value it had in [d]. *)
Lemma dict_get_update {V} (other : Py.dict V) : forall d k,
  Py.dict_get (Py.dict_update d other) k =
  match Py.dict_get (rev other) k with
  | Some v => Some v
  | None => Py.dict_get d k
  end.
Proof.
  unfold Py.dict_update.
  induction other as [| [k0 v0] rest IH]; intros d k; cbn [fold_left rev].
  - reflexivity.
  - rewrite IH, dict_get_app, dict_get_set. cbn [fst snd Py.dict_get].
    destruct (Py.dict_get (rev rest) k); [reflexivity |].
    now destruct (k0 =? k)%string.
Qed.

(** X27. The settings document.  In the Firestore store, the first
    [get_settings] on a missing document writes the defaults and returns
    them, and the next one returns the same; after [update_settings], a
    key reads as the update gave it, and otherwise as the document had
    it before: when the document was missing, a key the update does not
    give is absent, the defaults are not filled in.  The mock store
    starts from the defaults and reads updates back in the same way. *)
Theorem settings_update_then_get :
  forall settings new_settings doc k,
    Database.get_settings None settings None =
      (inr (Database.default_settings_doc settings),
       Some (Database.default_settings_doc settings))
    /\ Database.get_settings None settings
         (snd (Database.get_settings None settings None))
       = Database.get_settings None settings None
    /\ (exists fields,
          Database.get_settings None settings
            (snd (Database.update_settings None new_settings doc))
          = (inr fields, Some fields)
          /\ Py.dict_get fields k =
             match Py.dict_get (rev new_settings) k with
             | Some v => Some v
             | None => Py.dict_get (Py.get doc []) k
             end)
    /\ Py.dict_get
         (DatabaseMock.get_settings
            (DatabaseMock.update_settings new_settings
               DatabaseMock.initial_settings)) k =
       match Py.dict_get (rev new_settings) k with
       | Some v => Some v
       | None => Py.dict_get DatabaseMock.initial_settings k
       end.
Proof.
  intros settings new_settings doc k.
  split; [reflexivity | split; [reflexivity | split]].
  - cbn. eexists. split; [reflexivity |]. apply dict_get_update.
  - apply dict_get_update.
Qed.

Example update_before_first_get_loses_defaults :
  let doc :=
    snd (Database.update_settings None
           [("alert_threshold_abs", Database.VInt 40)] None) in
  fst (Database.get_settings None default_settings doc)
  = inr [("alert_threshold_abs", Database.VInt 40)]
  /\ Py.dict_get
       (DatabaseMock.update_settings
          [("alert_threshold_abs", Database.VInt 40)]
          DatabaseMock.initial_settings) "mail_to"
     = Some (Database.VStr "admin@example.com").
Proof. split; reflexivity. Qed.

End TokenAndSettings.
